(** * jobinator: the JobSpy search tool

    A shallow embedding of
    [src/interview_agent/linkedin_tool/jobspy_tools.py]:
    [_trim_description] and [scrape_jobs_tool], together with the part
    of Python and pandas that these two functions observe.

    Modelling conventions.
    - Text is [string]; a character is one [ascii].  The model is exact
      for ASCII text; bytes above 127 are taken as uncased, printable
      characters.
    - A cell of the collaborator's table is a [pyval], the value that
      [job.get(...)] hands to the formatting code.  A [float] is given
      by its sign and the exact value of its magnitude, or is infinite,
      and carries the text that [str()] gives for it.  Container-valued
      cells are outside the model.
    - Float arithmetic is not modelled: what [mean] computes on a
      column is pandas' business, and a table carries it as a function
      ([df_mean]), the way a float carries its text.
    - Python does not fix the order in which a set is iterated; the
      general form of the tool takes that order as an argument.
    - Code that can raise returns [res]; the call to the collaborator
      and the log records are collected in a trace of [event]s. *)

From Stdlib Require Import Ascii String QArith Qround Qabs Lqa.
From Stdlib Require OrderedTypeEx.
From stdpp Require Import base strings list sorting gmap pretty.

Local Open Scope string_scope.
Local Open Scope list_scope.
Local Open Scope stdpp_scope.

(** ** Exceptions and results *)

(** The exception classes that occur; [BaseException] stands for an
    exception that is not an [Exception] ([KeyboardInterrupt],
    [SystemExit]), with its text. *)
Inductive exn : Set :=
| AttributeError
| KeyError
| OverflowError
| TypeError
| ValueError
| BaseException (text : string).

Inductive res (A : Type) : Type :=
| Ok (a : A)
| Raise (e : exn).

Arguments Ok {A} a.
Arguments Raise {A} e.

#[global] Instance res_ret : MRet res := fun _ a => Ok a.

#[global] Instance res_bind : MBind res := fun _ _ k m =>
  match m with
  | Ok a => k a
  | Raise e => Raise e
  end.

(** ** The Python values found in a cell *)

(** A float that is not NaN: its sign bit and the exact value of its
    magnitude (a rational that is not negative), or an infinity.
    Negative zero is [Finite true 0]. *)
Inductive float : Type :=
| Finite (negative : bool) (magnitude : Q)
| Infinite (negative : bool).

Inductive pyval : Type :=
| PyNone
| PyNaN
| PyBool (b : bool)
| PyInt (z : Z)
| PyFloat (x : float) (text : string)
| PyStr (s : string)
| PyDate (text : string).

Module Py.

Definition newline : string := String (ascii_of_nat 10) "".

(** ["sep".join(parts)] *)
Definition join (sep : string) (parts : list string) : string :=
  String.concat sep parts.

(** [text[:limit]] for a limit that is not negative *)
Definition slice_to (limit : nat) (text : string) : string :=
  String.substring 0 limit text.

(** [text[:limit]]: a negative limit counts from the end *)
Definition slice (limit : Z) (text : string) : string :=
  if (0 <=? limit)%Z then slice_to (Z.to_nat limit) text
  else slice_to (String.length text - Z.to_nat (- limit)) text.

(** [bool(v)] *)
Definition truthy (v : pyval) : bool :=
  match v with
  | PyNone => false
  | PyNaN => true
  | PyBool b => b
  | PyInt z => negb (z =? 0)%Z
  | PyFloat (Finite _ magnitude) _ => negb (Qeq_bool magnitude 0)
  | PyFloat (Infinite _) _ => true
  | PyStr s => negb (String.eqb s "")
  | PyDate _ => true
  end.

(** [str(v)], which is also what an f-string field [{v}] renders *)
Definition str (v : pyval) : string :=
  match v with
  | PyNone => "None"
  | PyNaN => "nan"
  | PyBool true => "True"
  | PyBool false => "False"
  | PyInt z => pretty z
  | PyFloat _ text => text
  | PyStr s => s
  | PyDate text => text
  end.

Definition is_lower (c : ascii) : bool :=
  (97 <=? nat_of_ascii c)%nat && (nat_of_ascii c <=? 122)%nat.

Definition is_upper (c : ascii) : bool :=
  (65 <=? nat_of_ascii c)%nat && (nat_of_ascii c <=? 90)%nat.

Definition to_upper (c : ascii) : ascii :=
  if is_lower c then ascii_of_nat (nat_of_ascii c - 32) else c.

Definition to_lower (c : ascii) : ascii :=
  if is_upper c then ascii_of_nat (nat_of_ascii c + 32) else c.

(** [str.title]: a cased character is upper-cased when it follows an
    uncased one (or starts the text) and lower-cased otherwise. *)
Fixpoint title_from (previous_is_cased : bool) (s : string) : string :=
  match s with
  | EmptyString => EmptyString
  | String c rest =>
      if is_lower c then
        String (if previous_is_cased then c else to_upper c)
               (title_from true rest)
      else if is_upper c then
        String (if previous_is_cased then to_lower c else c)
               (title_from true rest)
      else String c (title_from false rest)
  end.

(** [v.title()]: only [str] has the method *)
Definition title (v : pyval) : res string :=
  match v with
  | PyStr s => Ok (title_from false s)
  | _ => Raise AttributeError
  end.

(** *** [repr] of a [str] and of a list of [str] *)

Definition quote1 : ascii := ascii_of_nat 39.
Definition quote2 : ascii := ascii_of_nat 34.
Definition backslash : ascii := ascii_of_nat 92.

Fixpoint contains (c : ascii) (s : string) : bool :=
  match s with
  | EmptyString => false
  | String d rest => Ascii.eqb c d || contains c rest
  end.

Definition hex_digit (n : nat) : ascii :=
  ascii_of_nat (if (n <? 10)%nat then 48 + n else 87 + n).

Definition repr_char (quote c : ascii) : string :=
  let n := nat_of_ascii c in
  if Ascii.eqb c quote || Ascii.eqb c backslash then
    String backslash (String c "")
  else if (n =? 9)%nat then String backslash "t"
  else if (n =? 10)%nat then String backslash "n"
  else if (n =? 13)%nat then String backslash "r"
  else if (n <? 32)%nat || (n =? 127)%nat then
    String backslash
      (String "x" (String (hex_digit (n / 16)) (String (hex_digit (n mod 16)) "")))
  else String c "".

Fixpoint repr_body (quote : ascii) (s : string) : string :=
  match s with
  | EmptyString => EmptyString
  | String c rest => repr_char quote c +:+ repr_body quote rest
  end.

(** Single quotes, unless the text has a single quote and no double
    quote. *)
Definition repr_str (s : string) : string :=
  let quote :=
    if contains quote1 s && negb (contains quote2 s) then quote2 else quote1 in
  String quote (repr_body quote s) +:+ String quote "".

Definition repr_list (l : list string) : string :=
  "[" +:+ join ", " (map repr_str l) +:+ "]".

(** *** [sorted] on texts *)

Fixpoint insert_sorted (x : string) (l : list string) : list string :=
  match l with
  | [] => [x]
  | y :: rest =>
      if String.leb x y then x :: y :: rest else y :: insert_sorted x rest
  end.

Definition sorted (l : list string) : list string :=
  foldr insert_sorted [] l.

(** *** The format specification [,.0f] *)

(** Round to the nearest integer, ties to the even one. *)
Definition round_half_even (x : Q) : Z :=
  let f := Qfloor x in
  match (x - inject_Z f ?= 1 # 2)%Q with
  | Lt => f
  | Gt => (f + 1)%Z
  | Eq => if Z.even f then f else (f + 1)%Z
  end.

(** A comma before every group of three digits, counted from the
    right. *)
Fixpoint thousands (digits : string) : string :=
  match digits with
  | EmptyString => EmptyString
  | String d rest =>
      let n := String.length rest in
      String d (if (0 <? n)%nat && (n mod 3 =? 0)%nat
                then "," +:+ thousands rest else thousands rest)
  end.

(** [f"{x:,.0f}"] for a float [x] that is not NaN: the sign bit, then
    the magnitude rounded to an integer and grouped (so a small
    negative number and negative zero give ["-0"]), or [inf]. *)
Definition format_f0 (x : float) : string :=
  match x with
  | Finite negative magnitude =>
      (if negative then "-" else "")
      +:+ thousands (pretty (round_half_even (Qabs magnitude)))
  | Infinite negative => (if negative then "-" else "") +:+ "inf"
  end.

(** The nearest integer with at most 53 significant bits, ties to the
    even one: the magnitude of [float(n)] for [n] that is not
    negative. *)
Definition round_to_53_bits (n : Z) : Z :=
  let drop := (Z.log2 n + 1 - 53)%Z in
  if (drop <=? 0)%Z then n
  else
    let kept := Z.shiftr n drop in
    let rest := Z.land n (Z.ones drop) in
    let half := Z.shiftl 1 (drop - 1) in
    let rounded :=
      if (rest <? half)%Z then kept
      else if (half <? rest)%Z then (kept + 1)%Z
      else if Z.even kept then kept else (kept + 1)%Z in
    Z.shiftl rounded drop.

(** [float(z)]: an [int] beyond the range of a float is an
    [OverflowError]. *)
Definition float_of_int (z : Z) : res float :=
  let magnitude := round_to_53_bits (Z.abs z) in
  if (2 ^ 1024 <=? magnitude)%Z then Raise OverflowError
  else Ok (Finite (z <? 0)%Z (inject_Z magnitude)).

(** [f"{v:,.0f}"].  An [int] (and a [bool], which is one) is converted
    to a float first; a text rejects the specification; a date hands
    it to [strftime], which has no directive to expand. *)
Definition format_amount (v : pyval) : res string :=
  match v with
  | PyNone => Raise TypeError
  | PyNaN => Ok "nan"
  | PyBool b => x ← float_of_int (if b then 1 else 0); Ok (format_f0 x)
  | PyInt z => x ← float_of_int z; Ok (format_f0 x)
  | PyFloat x _ => Ok (format_f0 x)
  | PyStr _ => Raise ValueError
  | PyDate _ => Ok ",.0f"
  end.

End Py.

(** ** The part of pandas the tool uses *)

(** A row as the collaborator builds it: a record from column label to
    cell.  A label the record lacks reads as NaN, which is how pandas
    fills the holes when it builds a table from records. *)
Definition row_cell (row : gmap string pyval) (key : string) : pyval :=
  default PyNaN (row !! key).

(** A table: its column labels, its rows, and what pandas' [mean]
    gives on a column of cells of this table, a value or an exception.
    The arithmetic behind [mean] (float64 sums, in an order that pandas
    chooses) is not part of the source. *)
Record DataFrame : Type := {
  df_columns : list string;
  df_rows : list (gmap string pyval);
  df_mean : list pyval -> res pyval
}.

(** One row of the table, as [iterrows] yields it: the cells under the
    table's column labels. *)
Record Series : Type := {
  sr_index : list string;
  sr_cells : gmap string pyval
}.

Module pd.

(** [pd.notna(v)] on a scalar *)
Definition notna (v : pyval) : bool :=
  match v with
  | PyNone | PyNaN => false
  | _ => true
  end.

(** [len(df)] *)
Definition len (df : DataFrame) : nat := length (df_rows df).

(** [df.empty]: some axis has length zero *)
Definition empty (df : DataFrame) : bool :=
  (len df =? 0)%nat || (length (df_columns df) =? 0)%nat.

(** [df.iterrows()], without the index labels, which the tool drops *)
Definition iterrows (df : DataFrame) : list Series :=
  map (fun row => {| sr_index := df_columns df; sr_cells := row |})
      (df_rows df).

(** [row.get(key, default)] *)
Definition get (job : Series) (key : string) (default : pyval) : pyval :=
  if bool_decide (key ∈ sr_index job) then row_cell (sr_cells job) key
  else default.

(** [df.get(key)]: the column, or [None] *)
Definition get_column (df : DataFrame) (key : string) : option (list pyval) :=
  if bool_decide (key ∈ df_columns df)
  then Some (map (fun row => row_cell row key) (df_rows df))
  else None.

(** [df[key]] *)
Definition getitem (df : DataFrame) (key : string) : res (list pyval) :=
  match get_column df key with
  | Some column => Ok column
  | None => Raise KeyError
  end.

(** [column.fillna(value)] *)
Definition fillna (value : pyval) (column : list pyval) : list pyval :=
  map (fun v => if notna v then v else value) column.

(** [column.astype(bool)] *)
Definition astype_bool (column : list pyval) : list bool :=
  map Py.truthy column.

(** [int(flags.sum())] *)
Definition sum_bool (flags : list bool) : nat :=
  length (List.filter id flags).

(** [a & b] on two boolean columns of one table *)
Definition and_mask (a b : list bool) : list bool := zip_with andb a b.

(** [df[mask]] *)
Fixpoint select {A : Type} (rows : list A) (mask : list bool) : list A :=
  match rows, mask with
  | row :: rows', keep :: mask' =>
      if keep then row :: select rows' mask' else select rows' mask'
  | _, _ => []
  end.

Definition mask_rows (df : DataFrame) (mask : list bool) : DataFrame :=
  {| df_columns := df_columns df;
     df_rows := select (df_rows df) mask;
     df_mean := df_mean df |}.

(** [column.mean()] for a column of the table [df] *)
Definition mean (df : DataFrame) (column : list pyval) : res pyval :=
  df_mean df column.

End pd.

(** ** The collaborator: JobSpy's [scrape_jobs] *)

Module JobSpy.

(** The keyword arguments of one call *)
Record Args : Type := {
  site_name : list string;
  search_term : string;
  location : option string;
  results_wanted : Z;
  job_type : option string;
  is_remote : bool;
  hours_old : option Z;
  distance : Z;
  easy_apply : bool;
  country_indeed : string;
  linkedin_fetch_description : bool;
  offset : Z;
  verbose : Z;
  description_format : string
}.

(** What a call does: it returns a table, or raises an [Exception]
    whose [str()] is the given text, or raises something that is not
    an [Exception] (a [KeyboardInterrupt], say), given by its text. *)
Inductive outcome : Type :=
| Returns (jobs_df : DataFrame)
| Raises (exc : string)
| Interrupts (exc : string).

End JobSpy.

(** What the tool does besides returning: log records and the call to
    the collaborator, in program order. *)
Inductive event : Type :=
| LogInfo (message : string)
| LogException (message : string)
| Call (args : JobSpy.Args).

Definition is_call (e : event) : bool :=
  match e with
  | Call _ => true
  | _ => false
  end.

(** ** jobspy_tools.py *)

Definition _DEFAULT_SITES : list string :=
  ["indeed"; "linkedin"; "zip_recruiter"; "google"].

Definition _VALID_SITES : gset string :=
  {[ "linkedin"; "indeed"; "glassdoor"; "zip_recruiter";
     "google"; "bayt"; "naukri"; "bdjobs" ]}.

(** [limit] is an [int]: a negative one makes [text[:limit]] drop
    characters from the end. *)
Definition _trim_description (text : string) (limit : Z) : string :=
  if (Z.of_nat (String.length text) <=? limit)%Z then text
  else Py.slice limit text +:+ "...".

Arguments _trim_description text%_string limit%_Z.

(** The parameters of [scrape_jobs_tool] *)
Record Request : Type := {
  search_term : string;
  location : option string;
  site_name : option (list string);
  results_wanted : Z;
  job_type : option string;
  is_remote : bool;
  hours_old : option Z;
  distance : Z;
  easy_apply : bool;
  country_indeed : string;
  linkedin_fetch_description : bool;
  offset : Z;
  verbose : Z
}.

(** The parameters' defaults, for a given search term *)
Definition default_request (term : string) : Request :=
  {| search_term := term; location := None; site_name := None;
     results_wanted := 15; job_type := None; is_remote := false;
     hours_old := None; distance := 50; easy_apply := false;
     country_indeed := "usa"; linkedin_fetch_description := false;
     offset := 0; verbose := 1 |}.

(** Line 57 *)
Definition sites_of (request : Request) : list string :=
  match site_name request with
  | Some names => names
  | None => _DEFAULT_SITES
  end.

(** Line 59 *)
Definition invalid_sites (sites : list string) : list string :=
  filter (fun site => site ∉ _VALID_SITES) sites.

(** An order in which Python may iterate over a set: each element
    once. *)
Definition iterates (X : gset string) (order : list string) : Prop :=
  NoDup order /\ forall x, x ∈ order <-> x ∈ X.

(** Lines 61-64, with [_VALID_SITES] iterated in the given order *)
Definition invalid_sites_error_in (order invalid : list string) : string :=
  "Error: invalid site names: " +:+ Py.repr_list invalid
  +:+ ". Valid sites: " +:+ Py.repr_list (Py.sorted order).

(** Lines 61-64, for one such order *)
Definition invalid_sites_error (invalid : list string) : string :=
  invalid_sites_error_in (elements _VALID_SITES) invalid.

(** Lines 67-82 *)
Definition scrape_args (request : Request) (sites : list string) : JobSpy.Args :=
  {| JobSpy.site_name := sites;
     JobSpy.search_term := search_term request;
     JobSpy.location := location request;
     JobSpy.results_wanted := results_wanted request;
     JobSpy.job_type := job_type request;
     JobSpy.is_remote := is_remote request;
     JobSpy.hours_old := hours_old request;
     JobSpy.distance := distance request;
     JobSpy.easy_apply := easy_apply request;
     JobSpy.country_indeed := country_indeed request;
     JobSpy.linkedin_fetch_description := linkedin_fetch_description request;
     JobSpy.offset := offset request;
     JobSpy.verbose := verbose request;
     JobSpy.description_format := "markdown" |}.

Definition no_jobs_message : string :=
  "No jobs found that match your criteria. "
  +:+ "Try adjusting your search parameters.".

(** Lines 94-96; [if location:] holds for a text that is not empty *)
Definition results_summary (request : Request) (jobs_df : DataFrame) : string :=
  "Found " +:+ pretty (pd.len jobs_df) +:+ " jobs for '"
  +:+ search_term request +:+ "'"
  +:+ match location request with
      | Some place =>
          if negb (String.eqb place "") then " in " +:+ place else ""
      | None => ""
      end.

(** A line that is appended when [pd.notna(job.get(key))] *)
Definition optional_line (job : Series) (key label suffix : string)
  : list string :=
  let value := pd.get job key PyNone in
  if pd.notna value then [label +:+ Py.str value +:+ suffix] else [].

(** Lines 100-103 *)
Definition mandatory_lines (index : nat) (job : Series) : res (list string) :=
  source ← Py.title (pd.get job "site" (PyStr "N/A"));
  Ok [ pretty index +:+ ". " +:+ Py.str (pd.get job "title" (PyStr "N/A"));
       "Company: " +:+ Py.str (pd.get job "company" (PyStr "N/A"));
       "Location: " +:+ Py.str (pd.get job "location" (PyStr "N/A"));
       "Source: " +:+ source ].

(** Lines 110-117 *)
Definition salary_line (job : Series) : res (list string) :=
  let min_amount := pd.get job "min_amount" PyNone in
  let max_amount := pd.get job "max_amount" PyNone in
  if pd.notna min_amount && pd.notna max_amount then
    let currency := pd.get job "currency" (PyStr "USD") in
    let interval := pd.get job "interval" (PyStr "yearly") in
    low ← Py.format_amount min_amount;
    high ← Py.format_amount max_amount;
    Ok [ "Salary: " +:+ low +:+ " - " +:+ high +:+ " " +:+ Py.str currency
         +:+ " (" +:+ Py.str interval +:+ ")" ]
  else Ok [].

(** Lines 119-120 *)
Definition remote_line (job : Series) : list string :=
  if Py.truthy (pd.get job "is_remote" PyNone)
  then ["Remote work available"] else [].

(** Lines 125-127 *)
Definition description_line (job : Series) : list string :=
  let value := pd.get job "description" PyNone in
  if pd.notna value
  then ["Description: " +:+ _trim_description (Py.str value) 300]
  else [].

(** Lines 100-138: the lines of one listing, in the order in which the
    loop body appends them *)
Definition listing_parts (index : nat) (job : Series) : res (list string) :=
  head ← mandatory_lines index job;
  salary ← salary_line job;
  Ok (head
      ++ optional_line job "job_type" "Type: " ""
      ++ optional_line job "date_posted" "Posted: " ""
      ++ salary
      ++ remote_line job
      ++ optional_line job "job_url" "Apply: " ""
      ++ description_line job
      ++ optional_line job "company_industry" "Industry: " ""
      ++ optional_line job "job_level" "Level: " ""
      ++ optional_line job "skills" "Skills: " ""
      ++ optional_line job "experience_range" "Experience: " ""
      ++ optional_line job "company_rating" "Company Rating: " "/5").

(** Lines 98-140: the loop over [enumerate(jobs_df.iterrows(), start)] *)
Fixpoint listings (index : nat) (jobs : list Series) : res (list string) :=
  match jobs with
  | [] => Ok []
  | job :: rest =>
      parts ← listing_parts index job;
      blocks ← listings (S index) rest;
      Ok (Py.join Py.newline parts :: blocks)
  end.

(** Lines 142-146 *)
Definition remote_count (jobs_df : DataFrame) : nat :=
  match pd.get_column jobs_df "is_remote" with
  | Some remote_column =>
      pd.sum_bool (pd.astype_bool (pd.fillna (PyBool false) remote_column))
  | None => 0
  end.

(** Lines 159-172 *)
Definition salary_statistics (jobs_df : DataFrame) : res (list string) :=
  match pd.get_column jobs_df "min_amount",
        pd.get_column jobs_df "max_amount" with
  | Some min_amounts, Some max_amounts =>
      let salary_mask :=
        pd.and_mask (map pd.notna min_amounts) (map pd.notna max_amounts) in
      let salary_jobs := pd.mask_rows jobs_df salary_mask in
      if negb (pd.empty salary_jobs) then
        avg_min ← pd.getitem salary_jobs "min_amount" ≫= pd.mean salary_jobs;
        avg_max ← pd.getitem salary_jobs "max_amount" ≫= pd.mean salary_jobs;
        low ← Py.format_amount avg_min;
        high ← Py.format_amount avg_max;
        Ok [ "Jobs with salary info: " +:+ pretty (pd.len salary_jobs);
             "Average salary range: " +:+ low +:+ " - " +:+ high ]
      else Ok []
  | _, _ => Ok []
  end.

Definition separator : string := Py.newline +:+ "---" +:+ Py.newline.

(** Lines 148-157 *)
Definition summary_lines (request : Request) (sites : list string)
    (jobs_df : DataFrame) (blocks : list string) : list string :=
  [ results_summary request jobs_df;
    "";
    Py.join separator blocks;
    "";
    "Search Summary";
    "Total jobs found: " +:+ pretty (pd.len jobs_df);
    "Sites searched: " +:+ Py.join ", " sites;
    "Remote jobs: " +:+ pretty (remote_count jobs_df) ].

(** Lines 94-175: the report for a table that is not empty *)
Definition report (request : Request) (sites : list string)
    (jobs_df : DataFrame) : res string :=
  blocks ← listings 1 (pd.iterrows jobs_df);
  statistics ← salary_statistics jobs_df;
  Ok (Py.join Py.newline
        (summary_lines request sites jobs_df blocks ++ statistics)).

(** Line 56 *)
Definition started (request : Request) : event :=
  LogInfo ("Starting job search for '" +:+ search_term request +:+ "'").

(** [scrape_jobs_tool], in a process that iterates [_VALID_SITES] in
    the given order: the value returned or the exception raised, and
    the trace of events up to that point.  Line 83 catches an
    [Exception] and nothing else. *)
Definition scrape_jobs_tool_in (order : list string)
    (scrape_jobs : JobSpy.Args -> JobSpy.outcome)
    (request : Request) : res string * list event :=
  let term := search_term request in
  let started := started request in
  let sites := sites_of request in
  match invalid_sites sites with
  | (_ :: _) as invalid =>
      (Ok (invalid_sites_error_in order invalid), [started])
  | [] =>
      let args := scrape_args request sites in
      match scrape_jobs args with
      | JobSpy.Interrupts exc =>
          (Raise (BaseException exc), [started; Call args])
      | JobSpy.Raises exc =>
          let message := "Error scraping jobs: " +:+ exc in
          (Ok message, [started; Call args; LogException message])
      | JobSpy.Returns jobs_df =>
          if pd.empty jobs_df then
            (Ok no_jobs_message,
             [started; Call args;
              LogInfo ("No jobs found for '" +:+ term +:+ "'")])
          else
            match report request sites jobs_df with
            | Ok text =>
                (Ok text,
                 [started; Call args;
                  LogInfo ("Job search completed for '" +:+ term +:+ "'")])
            | Raise e => (Raise e, [started; Call args])
            end
      end
  end.

(** [scrape_jobs_tool], for one such order *)
Definition scrape_jobs_tool (scrape_jobs : JobSpy.Args -> JobSpy.outcome)
    (request : Request) : res string * list event :=
  scrape_jobs_tool_in (elements _VALID_SITES) scrape_jobs request.

(** ** The notions of the specification, stated on rows *)

(** An attribute is present in a record when the table has its column
    and the cell is not null. *)
Definition present (job : Series) (key : string) : bool :=
  pd.notna (pd.get job key PyNone).

(** Both salary bounds are present. *)
Definition has_salary (job : Series) : bool :=
  present job "min_amount" && present job "max_amount".

(** The remote flag coerced to a boolean, a flag that is not present
    counting as false. *)
Definition remote_flag (job : Series) : bool :=
  present job "is_remote" && Py.truthy (pd.get job "is_remote" PyNone).

(** The rows with salary information, in table order *)
Definition salary_rows (jobs_df : DataFrame) : list Series :=
  List.filter has_salary (pd.iterrows jobs_df).

(** The rows of a table that have both salary cells filled *)
Definition salary_cells (row : gmap string pyval) : bool :=
  pd.notna (row_cell row "min_amount") && pd.notna (row_cell row "max_amount").

(** The text shown for a mandatory attribute *)
Definition shown (job : Series) (key : string) : string :=
  if bool_decide (key ∈ sr_index job)
  then Py.str (row_cell (sr_cells job) key) else "N/A".




(** The cells of a salary column in the rows that have both bounds *)
Definition salary_column (jobs_df : DataFrame) (key : string) : list pyval :=
  map (fun job => pd.get job key PyNone) (salary_rows jobs_df).





(** ** Sample data *)

(** The mean of a column that holds one float is that float (the sum
    [x] over the count [1.0]); the sample tables need no more. *)
Definition mean_of_one (column : list pyval) : res pyval :=
  match column with
  | [PyFloat x text] => Ok (PyFloat x text)
  | _ => Raise TypeError
  end.

Definition job_columns : list string :=
  [ "site"; "title"; "company"; "location"; "job_type"; "date_posted";
    "min_amount"; "max_amount"; "currency"; "interval"; "is_remote";
    "job_url"; "description"; "company_rating" ].

Definition full_row : gmap string pyval :=
  list_to_map
    [ ("site", PyStr "indeed"); ("title", PyStr "Python Developer");
      ("company", PyStr "Acme"); ("location", PyStr "Austin, TX");
      ("job_type", PyStr "fulltime"); ("date_posted", PyDate "2024-05-01");
      ("min_amount", PyFloat (Finite false 90000) "90000.0");
      ("max_amount", PyFloat (Finite false 120001) "120001.0");
      ("currency", PyStr "USD"); ("interval", PyStr "yearly");
      ("is_remote", PyBool true);
      ("job_url", PyStr "https://example.com/jobs/1");
      ("description", PyStr "Build and run data pipelines.");
      ("company_rating", PyFloat (Finite false (9 # 2)) "4.5") ].

Definition minimal_row : gmap string pyval :=
  list_to_map
    [ ("site", PyStr "indeed"); ("title", PyStr "Data Engineer");
      ("company", PyNone); ("location", PyNone); ("job_type", PyNone);
      ("date_posted", PyNone); ("min_amount", PyNone);
      ("max_amount", PyNone); ("currency", PyNone); ("interval", PyNone);
      ("is_remote", PyBool false); ("job_url", PyNone);
      ("description", PyNone); ("company_rating", PyNone) ].

Definition two_jobs : DataFrame :=
  {| df_columns := job_columns; df_rows := [full_row; minimal_row];
     df_mean := mean_of_one |}.

Definition no_jobs : DataFrame :=
  {| df_columns := job_columns; df_rows := []; df_mean := mean_of_one |}.

Definition python_request : Request :=
  {| search_term := "python developer"; location := Some "Austin";
     site_name := Some ["indeed"]; results_wanted := 2; job_type := None;
     is_remote := false; hours_old := None; distance := 50;
     easy_apply := false; country_indeed := "usa";
     linkedin_fetch_description := false; offset := 0; verbose := 1 |}.

Definition monster_request : Request :=
  {| search_term := "python developer"; location := None;
     site_name := Some ["indeed"; "monster"]; results_wanted := 15;
     job_type := None; is_remote := false; hours_old := None;
     distance := 50; easy_apply := false; country_indeed := "usa";
     linkedin_fetch_description := false; offset := 0; verbose := 1 |}.

(** A row of a two-site search: the second site's scraper never fills
    the remote flag, so its rows read NaN in that column. *)
Definition no_flag_row : gmap string pyval :=
  list_to_map
    [ ("site", PyStr "google"); ("title", PyStr "Data Engineer");
      ("company", PyStr "Initech"); ("location", PyStr "Dallas, TX") ].

Definition flagged_row : gmap string pyval :=
  list_to_map
    [ ("site", PyStr "indeed"); ("title", PyStr "Python Developer");
      ("company", PyStr "Acme"); ("location", PyStr "Austin, TX");
      ("is_remote", PyBool false) ].

Definition mixed_jobs : DataFrame :=
  {| df_columns := ["site"; "title"; "company"; "location"; "is_remote"];
     df_rows := [flagged_row; no_flag_row];
     df_mean := mean_of_one |}.

Definition two_site_request : Request :=
  {| search_term := "python developer"; location := None;
     site_name := Some ["indeed"; "google"]; results_wanted := 15;
     job_type := None; is_remote := false; hours_old := None;
     distance := 50; easy_apply := false; country_indeed := "usa";
     linkedin_fetch_description := false; offset := 0; verbose := 1 |}.





(** The declaration order of [_VALID_SITES], one possible iteration
    order *)
Definition declared_order : list string :=
  [ "linkedin"; "indeed"; "glassdoor"; "zip_recruiter";
    "google"; "bayt"; "naukri"; "bdjobs" ].

(** The report for [two_jobs], line by line *)
Definition two_jobs_text : string :=
  Py.join Py.newline
    [ "Found 2 jobs for 'python developer' in Austin"; "";
      "1. Python Developer"; "Company: Acme"; "Location: Austin, TX";
      "Source: Indeed"; "Type: fulltime"; "Posted: 2024-05-01";
      "Salary: 90,000 - 120,001 USD (yearly)"; "Remote work available";
      "Apply: https://example.com/jobs/1";
      "Description: Build and run data pipelines."; "Company Rating: 4.5/5";
      "---";
      "2. Data Engineer"; "Company: None"; "Location: None"; "Source: Indeed";
      "";
      "Search Summary"; "Total jobs found: 2"; "Sites searched: indeed";
      "Remote jobs: 1"; "Jobs with salary info: 1";
      "Average salary range: 90,000 - 120,001" ].

(** The report for [mixed_jobs], line by line *)
Definition mixed_jobs_text : string :=
  Py.join Py.newline
    [ "Found 2 jobs for 'python developer'"; "";
      "1. Python Developer"; "Company: Acme"; "Location: Austin, TX";
      "Source: Indeed";
      "---";
      "2. Data Engineer"; "Company: Initech"; "Location: Dallas, TX";
      "Source: Google"; "Remote work available";
      "";
      "Search Summary"; "Total jobs found: 2";
      "Sites searched: indeed, google"; "Remote jobs: 0" ].

Fixpoint repeat_char (c : ascii) (n : nat) : string :=
  match n with
  | O => EmptyString
  | S n' => String c (repeat_char c n')
  end.

(** ** The reference listings of jobspy_tools.py *)

(** Lines 207-216: the dictionary of site descriptions, in insertion
    order *)
Definition sites_info : list (string * string) :=
  [ ("linkedin", "Professional networking platform with job listings.");
    ("indeed", "Large job search engine with broad coverage.");
    ("glassdoor", "Job listings with company reviews and salary data.");
    ("zip_recruiter", "Job matching platform focused on US and Canada.");
    ("google", "Aggregated job listings surfaced through Google search.");
    ("bayt", "Middle East focused job portal.");
    ("naukri", "India's leading job portal with detailed listings.");
    ("bdjobs", "Primary job portal for Bangladesh.") ].

(** Lines 218-229 *)
Definition supported_sites_lines : list string :=
  ["Supported Job Board Sites"; ""]
  ++ map (fun entry => "- " +:+ fst entry +:+ ": " +:+ snd entry) sites_info
  ++ [ "";
       "Usage Tips";
       "- Start with ['indeed', 'zip_recruiter'] for broad US coverage.";
       "- Combine ['indeed', 'linkedin', 'glassdoor', 'google'] for a wide net.";
       "- Include regional sites like 'bayt', 'naukri', or 'bdjobs' for specific markets.";
       "- LinkedIn has the strictest rate limits; Indeed is generally the most reliable." ].

Definition get_supported_sites : string :=
  Py.join Py.newline supported_sites_lines.

(** Lines 180-201.  [Country] is JobSpy's enumeration; a member is
    given by its name and by the first component of its value, the
    text of its aliases. *)
Definition supported_countries_lines (Country : list (string * string))
  : list string :=
  ["Supported Countries for Job Searches"; ""]
  ++ map (fun country => "- " +:+ fst country +:+ ": " +:+ snd country) Country
  ++ [ "";
       "Note: Use one of the identifiers above for the 'country_indeed' parameter.";
       "";
       "Popular Options:";
       "- usa, us, united states";
       "- uk, united kingdom";
       "- canada";
       "- australia";
       "- germany";
       "- france";
       "- india";
       "- singapore" ].

Definition get_supported_countries (Country : list (string * string)) : string :=
  Py.join Py.newline (supported_countries_lines Country).

(** ** Notions used to state further properties *)

(** The calls to the collaborator in a trace *)
Definition calls (trace : list event) : list JobSpy.Args :=
  omap (fun e => match e with Call args => Some args | _ => None end) trace.

(** A formatted number without its grouping commas *)
Fixpoint strip_commas (s : string) : string :=
  match s with
  | EmptyString => EmptyString
  | String c rest =>
      if Ascii.eqb c "," then strip_commas rest
      else String c (strip_commas rest)
  end.

Definition is_nan (v : pyval) : bool :=
  match v with
  | PyNaN => true
  | _ => false
  end.

(** The listing of a row shows the remote line. *)
Definition shows_remote (job : Series) : bool :=
  match remote_line job with
  | [] => false
  | _ :: _ => true
  end.

(** The listing of a row shows a salary line. *)
Definition shows_salary (job : Series) : bool :=
  match salary_line job with
  | Ok (_ :: _) => true
  | _ => false
  end.

(** A request that differs only in what is handed on to the
    collaborator *)
Definition same_display (request request' : Request) : Prop :=
  search_term request = search_term request'
  /\ location request = location request'
  /\ site_name request = site_name request'.

(** A few members of JobSpy's enumeration *)
Definition some_countries : list (string * string) :=
  [ ("ARGENTINA", "argentina"); ("UK", "uk,united kingdom");
    ("USA", "usa,us,united states") ].

(** ** Texts *)

Lemma length_append (s t : string) :
  String.length (s +:+ t) = String.length s + String.length t.
Proof. induction s as [|c s IH]; simpl; [reflexivity | now rewrite IH]. Qed.

Lemma length_slice_to (limit : nat) (text : string) :
  limit <= String.length text ->
  String.length (Py.slice_to limit text) = limit.
Proof.
  unfold Py.slice_to. revert limit.
  induction text as [|c text IH]; intros [|limit] Hle; simpl in *;
    try reflexivity; try lia.
  f_equal. apply IH. lia.
Qed.

Lemma prefix_append (s t : string) : String.prefix s (s +:+ t) = true.
Proof.
  induction s as [|c s IH]; simpl.
  - now destruct t.
  - destruct (Ascii.ascii_dec c c); [assumption | congruence].
Qed.

Lemma prefix_append_more (s t u : string) :
  String.prefix s t = true -> String.prefix s (t +:+ u) = true.
Proof.
  revert t. induction s as [|c s IH]; intros [|d t] H; simpl in *;
    try reflexivity; try discriminate.
  - now destruct u.
  - destruct (Ascii.ascii_dec c d); [now apply IH | discriminate].
Qed.

Lemma length_repeat_char (c : ascii) (n : nat) :
  String.length (repeat_char c n) = n.
Proof. induction n; simpl; congruence. Qed.

(** ** [_trim_description] *)

Lemma trim_short (text : string) (limit : Z) :
  (Z.of_nat (String.length text) <= limit)%Z ->
  _trim_description text limit = text.
Proof.
  intros H. unfold _trim_description.
  destruct (Z.leb_spec (Z.of_nat (String.length text)) limit);
    [reflexivity | lia].
Qed.

Lemma trim_long (text : string) (limit : Z) :
  (limit < Z.of_nat (String.length text))%Z ->
  _trim_description text limit = Py.slice limit text +:+ "...".
Proof.
  intros H. unfold _trim_description.
  destruct (Z.leb_spec (Z.of_nat (String.length text)) limit);
    [lia | reflexivity].
Qed.

Lemma slice_nonneg (text : string) (limit : Z) :
  (0 <= limit)%Z -> Py.slice limit text = Py.slice_to (Z.to_nat limit) text.
Proof.
  intros H. unfold Py.slice.
  destruct (Z.leb_spec 0 limit); [reflexivity | lia].
Qed.

Lemma slice_negative (text : string) (limit : Z) :
  (limit < 0)%Z ->
  Py.slice limit text
  = Py.slice_to (String.length text - Z.to_nat (- limit)) text.
Proof.
  intros H. unfold Py.slice.
  destruct (Z.leb_spec 0 limit); [lia | reflexivity].
Qed.

(** C3. A description of more than 300 characters is rendered as its
    first 300 characters followed by ["..."], 303 characters in all; a
    description of at most 300 characters is rendered as it is.  The
    rendered description is what the listing shows after
    ["Description: "]. *)
Theorem trim_description_law (text : string) :
  (300 < String.length text ->
     _trim_description text 300 = Py.slice_to 300 text +:+ "..."
     /\ String.length (Py.slice_to 300 text) = 300
     /\ String.prefix (Py.slice_to 300 text) text = true
     /\ String.length (_trim_description text 300) = 303)
  /\ (String.length text <= 300 -> _trim_description text 300 = text)
  /\ (forall job : Series,
        pd.get job "description" PyNone = PyStr text ->
        description_line job
        = ["Description: " +:+ _trim_description text 300]).
Proof.
  split; [|split].
  - intros Hlong. rewrite trim_long by lia.
    rewrite slice_nonneg by lia. change (Z.to_nat 300) with 300.
    assert (Hlen : String.length (Py.slice_to 300 text) = 300)
      by (apply length_slice_to; lia).
    repeat split; try assumption.
    + apply String.prefix_correct. rewrite Hlen. reflexivity.
    + rewrite length_append, Hlen. reflexivity.
  - intros Hshort. apply trim_short. lia.
  - intros job Hget. unfold description_line. rewrite Hget. reflexivity.
Qed.

Lemma trim_description_law_witness :
  300 < String.length (repeat_char "a" 301)
  /\ String.length (_trim_description (repeat_char "a" 301) 300) = 303
  /\ String.length "Build and run data pipelines." <= 300
  /\ _trim_description "Build and run data pipelines." 300
     = "Build and run data pipelines.".
Proof.
  assert (Hlong : 300 < String.length (repeat_char "a" 301))
    by (rewrite length_repeat_char; lia).
  assert (Hshort : String.length "Build and run data pipelines." <= 300)
    by (vm_compute; lia).
  split; [exact Hlong|]. split.
  - apply (trim_description_law (repeat_char "a" 301)). exact Hlong.
  - split; [exact Hshort|].
    apply (trim_description_law "Build and run data pipelines."). exact Hshort.
Defined.

(** ** The ways through [scrape_jobs_tool] *)

Lemma invalid_sites_nil (sites : list string) :
  invalid_sites sites = [] <-> Forall (fun site => site ∈ _VALID_SITES) sites.
Proof.
  unfold invalid_sites. induction sites as [|site sites IH]; simpl.
  - split; [constructor | reflexivity].
  - rewrite filter_cons. destruct (decide (site ∉ _VALID_SITES)) as [Hout|Hin].
    + split; [discriminate|]. intros H. inversion H; subst. contradiction.
    + rewrite IH. split.
      * intros H. constructor; [|assumption].
        destruct (decide (site ∈ _VALID_SITES)); [assumption | contradiction].
      * intros H. now inversion H.
Qed.

Lemma invalid_sites_cons (sites : list string) (site : string) :
  site ∈ sites -> site ∉ _VALID_SITES -> invalid_sites sites <> [].
Proof.
  intros Hin Hout Hnil.
  assert (H : site ∈ invalid_sites sites)
    by (unfold invalid_sites; apply list_elem_of_filter; split; assumption).
  rewrite Hnil in H. inversion H.
Qed.

Lemma tool_invalid scrape_jobs request :
  invalid_sites (sites_of request) <> [] ->
  scrape_jobs_tool scrape_jobs request
  = (Ok (invalid_sites_error (invalid_sites (sites_of request))),
     [started request]).
Proof.
  intros H. unfold scrape_jobs_tool, scrape_jobs_tool_in.
  destruct (invalid_sites (sites_of request)); [congruence | reflexivity].
Qed.

Lemma tool_raises scrape_jobs request exc :
  invalid_sites (sites_of request) = [] ->
  scrape_jobs (scrape_args request (sites_of request)) = JobSpy.Raises exc ->
  scrape_jobs_tool scrape_jobs request
  = (Ok ("Error scraping jobs: " +:+ exc),
     [started request; Call (scrape_args request (sites_of request));
      LogException ("Error scraping jobs: " +:+ exc)]).
Proof.
  intros Hvalid Hcall. unfold scrape_jobs_tool, scrape_jobs_tool_in.
  rewrite Hvalid, Hcall. reflexivity.
Qed.

Lemma tool_interrupted scrape_jobs request exc :
  invalid_sites (sites_of request) = [] ->
  scrape_jobs (scrape_args request (sites_of request))
  = JobSpy.Interrupts exc ->
  scrape_jobs_tool scrape_jobs request
  = (Raise (BaseException exc),
     [started request; Call (scrape_args request (sites_of request))]).
Proof.
  intros Hvalid Hcall. unfold scrape_jobs_tool, scrape_jobs_tool_in.
  rewrite Hvalid, Hcall. reflexivity.
Qed.

Lemma tool_empty scrape_jobs request jobs_df :
  invalid_sites (sites_of request) = [] ->
  scrape_jobs (scrape_args request (sites_of request))
  = JobSpy.Returns jobs_df ->
  pd.empty jobs_df = true ->
  scrape_jobs_tool scrape_jobs request
  = (Ok no_jobs_message,
     [started request; Call (scrape_args request (sites_of request));
      LogInfo ("No jobs found for '" +:+ search_term request +:+ "'")]).
Proof.
  intros Hvalid Hcall Hempty. unfold scrape_jobs_tool, scrape_jobs_tool_in.
  rewrite Hvalid, Hcall, Hempty. reflexivity.
Qed.

Lemma tool_report scrape_jobs request jobs_df :
  invalid_sites (sites_of request) = [] ->
  scrape_jobs (scrape_args request (sites_of request))
  = JobSpy.Returns jobs_df ->
  pd.empty jobs_df = false ->
  fst (scrape_jobs_tool scrape_jobs request)
  = report request (sites_of request) jobs_df.
Proof.
  intros Hvalid Hcall Hempty. unfold scrape_jobs_tool, scrape_jobs_tool_in.
  rewrite Hvalid, Hcall, Hempty.
  destruct (report request (sites_of request) jobs_df); reflexivity.
Qed.

Lemma valid_sites_sorted :
  Py.sorted (elements _VALID_SITES)
  = [ "bayt"; "bdjobs"; "glassdoor"; "google"; "indeed"; "linkedin";
      "naukri"; "zip_recruiter" ].
Proof. vm_compute. reflexivity. Qed.

(** C2. When the site list has an identifier outside the valid set, the
    tool returns a text that starts with ["Error: invalid site names"],
    shows the list of the invalid identifiers and the sorted list of
    the valid ones, and the trace has no call to the collaborator. *)
Theorem invalid_sites_rejected scrape_jobs request :
  (exists site, site ∈ sites_of request /\ site ∉ _VALID_SITES) ->
  exists text,
    fst (scrape_jobs_tool scrape_jobs request) = Ok text
    /\ String.prefix "Error: invalid site names" text = true
    /\ text
       = "Error: invalid site names: "
         +:+ Py.repr_list
               (filter (fun site => site ∉ _VALID_SITES) (sites_of request))
         +:+ ". Valid sites: "
         +:+ "['bayt', 'bdjobs', 'glassdoor', 'google', 'indeed', "
         +:+ "'linkedin', 'naukri', 'zip_recruiter']"
    /\ snd (scrape_jobs_tool scrape_jobs request) = [started request]
    /\ List.filter is_call (snd (scrape_jobs_tool scrape_jobs request)) = [].
Proof.
  intros (site & Hin & Hout).
  rewrite (tool_invalid scrape_jobs request)
    by (eapply invalid_sites_cons; eassumption).
  eexists. split; [reflexivity|]. split; [reflexivity|].
  split; [|split; reflexivity].
  unfold invalid_sites_error, invalid_sites_error_in.
  rewrite valid_sites_sorted. reflexivity.
Qed.

Lemma invalid_sites_rejected_witness :
  exists text,
    fst (scrape_jobs_tool (fun _ => JobSpy.Returns two_jobs) monster_request)
    = Ok text
    /\ String.prefix "Error: invalid site names: ['monster']. " text = true.
Proof.
  destruct (invalid_sites_rejected (fun _ => JobSpy.Returns two_jobs)
              monster_request) as (text & Hret & _ & Htext & _).
  - exists "monster". split; [|vm_compute; intros H; discriminate H].
    apply list_elem_of_In. simpl. right. left. reflexivity.
  - exists text. split; [exact Hret|]. rewrite Htext. reflexivity.
Defined.

(** C7. With valid sites only and a collaborator that returns a table
    without rows, the tool returns the fixed advisory text, which starts
    with ["No jobs found"] and recommends adjusting the search
    parameters; no listing block was built, and the outcome is a
    returned text, not a raised exception: the collaborator was called
    once and the only records logged are informational. *)
Theorem no_jobs_found scrape_jobs request jobs_df :
  Forall (fun site => site ∈ _VALID_SITES) (sites_of request) ->
  scrape_jobs (scrape_args request (sites_of request))
  = JobSpy.Returns jobs_df ->
  df_rows jobs_df = [] ->
  fst (scrape_jobs_tool scrape_jobs request)
  = Ok ("No jobs found that match your criteria. "
        +:+ "Try adjusting your search parameters.")
  /\ String.prefix "No jobs found"
       ("No jobs found that match your criteria. "
        +:+ "Try adjusting your search parameters.") = true
  /\ listings 1 (pd.iterrows jobs_df) = Ok []
  /\ snd (scrape_jobs_tool scrape_jobs request)
     = [ started request;
         Call (scrape_args request (sites_of request));
         LogInfo ("No jobs found for '" +:+ search_term request +:+ "'") ].
Proof.
  intros Hvalid Hcall Hrows.
  rewrite (tool_empty scrape_jobs request jobs_df).
  - repeat split. unfold pd.iterrows. rewrite Hrows. reflexivity.
  - now apply invalid_sites_nil.
  - assumption.
  - unfold pd.empty, pd.len. rewrite Hrows. reflexivity.
Qed.

Lemma no_jobs_found_witness :
  fst (scrape_jobs_tool (fun _ => JobSpy.Returns no_jobs) python_request)
  = Ok ("No jobs found that match your criteria. "
        +:+ "Try adjusting your search parameters.").
Proof.
  apply (no_jobs_found (fun _ => JobSpy.Returns no_jobs) python_request
           no_jobs).
  - apply invalid_sites_nil. vm_compute. reflexivity.
  - reflexivity.
  - reflexivity.
Defined.

(** *** [sorted] does not depend on the order of iteration *)

Lemma leb_lt_or_eq (a b : string) :
  String.leb a b = true <-> OrderedTypeEx.String_as_OT.lt a b \/ a = b.
Proof.
  unfold String.leb.
  pose proof (OrderedTypeEx.String_as_OT.cmp_lt a b) as Hlt.
  unfold OrderedTypeEx.String_as_OT.cmp in Hlt.
  destruct (String.compare a b) eqn:Hcmp.
  - apply String.compare_eq_iff in Hcmp. split; [now right | reflexivity].
  - split; [intros _; left; now apply Hlt | reflexivity].
  - split; [discriminate|]. intros [H | ->].
    + apply Hlt in H. discriminate.
    + pose proof (String.compare_antisym b b) as Hanti. rewrite Hcmp in Hanti.
      discriminate.
Qed.

Lemma leb_transitive : Transitive (fun a b : string => String.leb a b = true).
Proof.
  intros a b c Hab Hbc. apply leb_lt_or_eq in Hab, Hbc. apply leb_lt_or_eq.
  destruct Hab as [Hab | ->]; [|assumption].
  destruct Hbc as [Hbc | <-]; [|now left].
  left. eapply OrderedTypeEx.String_as_OT.lt_trans; eassumption.
Qed.

Lemma leb_antisymmetric :
  AntiSymm eq (fun a b : string => String.leb a b = true).
Proof. intros a b. apply String.leb_antisym. Qed.

Lemma insert_sorted_permutation (x : string) (l : list string) :
  Py.insert_sorted x l ≡ₚ x :: l.
Proof.
  induction l as [|y l IH]; simpl; [reflexivity|].
  destruct (String.leb x y); [reflexivity|].
  rewrite IH. apply Permutation_swap.
Qed.

Lemma sorted_permutation (l : list string) : Py.sorted l ≡ₚ l.
Proof.
  induction l as [|x l IH]; simpl; [reflexivity|].
  rewrite insert_sorted_permutation. now rewrite IH.
Qed.

Lemma insert_sorted_hd (x y : string) (l : list string) :
  String.leb y x = true ->
  HdRel (fun a b => String.leb a b = true) y l ->
  HdRel (fun a b => String.leb a b = true) y (Py.insert_sorted x l).
Proof.
  intros Hyx Hhd. destruct l as [|z l]; simpl.
  - now constructor.
  - destruct (String.leb x z); constructor; [assumption|].
    now inversion Hhd.
Qed.

Lemma insert_sorted_ordered (x : string) (l : list string) :
  Sorted (fun a b => String.leb a b = true) l ->
  Sorted (fun a b => String.leb a b = true) (Py.insert_sorted x l).
Proof.
  induction 1 as [|y l Hsorted IH Hhd]; simpl.
  - repeat constructor.
  - destruct (String.leb x y) eqn:Hxy.
    + constructor; [now constructor|]. now constructor.
    + constructor; [assumption|]. apply insert_sorted_hd; [|assumption].
      destruct (String.leb_total x y) as [H|H]; [congruence | assumption].
Qed.

Lemma sorted_ordered (l : list string) :
  Sorted (fun a b => String.leb a b = true) (Py.sorted l).
Proof.
  induction l as [|x l IH]; simpl; [constructor|].
  now apply insert_sorted_ordered.
Qed.

Lemma sorted_of_permutation (l l' : list string) :
  l ≡ₚ l' -> Py.sorted l = Py.sorted l'.
Proof.
  intros Hperm.
  apply (@Sorted_unique _ _ leb_transitive leb_antisymmetric);
    try apply sorted_ordered.
  now rewrite !sorted_permutation.
Qed.

Lemma iterates_permutation (X : gset string) (order order' : list string) :
  iterates X order -> iterates X order' -> order ≡ₚ order'.
Proof.
  intros [Hnodup Hin] [Hnodup' Hin'].
  apply NoDup_Permutation; try assumption.
  intros x. now rewrite Hin, Hin'.
Qed.

Lemma iterates_elements (X : gset string) : iterates X (elements X).
Proof.
  split; [apply NoDup_elements|]. intros x. apply elem_of_elements.
Qed.

(** C9. The text the tool returns (and the trace it leaves) depends on
    the request and on the collaborator's response to the one call it
    makes, and on nothing else: not on the order in which Python
    iterates the set of valid sites, which [sorted] removes from the
    validation error, and not on how the collaborator responds to
    other arguments.  Two runs on the same request, under any two
    iteration orders of the set, with collaborators that respond alike
    to the call, give the same result. *)
Theorem scrape_jobs_tool_deterministic
    order order' scrape_jobs scrape_jobs' request :
  iterates _VALID_SITES order ->
  iterates _VALID_SITES order' ->
  scrape_jobs (scrape_args request (sites_of request))
  = scrape_jobs' (scrape_args request (sites_of request)) ->
  scrape_jobs_tool_in order scrape_jobs request
  = scrape_jobs_tool_in order' scrape_jobs' request.
Proof.
  intros Horder Horder' Hsame. unfold scrape_jobs_tool_in.
  destruct (invalid_sites (sites_of request)) as [|site invalid].
  - rewrite Hsame. reflexivity.
  - unfold invalid_sites_error_in.
    rewrite (sorted_of_permutation order order')
      by (eapply iterates_permutation; eassumption).
    reflexivity.
Qed.

Lemma scrape_jobs_tool_deterministic_witness :
  iterates _VALID_SITES declared_order
  /\ scrape_jobs_tool_in declared_order
       (fun _ => JobSpy.Returns two_jobs) monster_request
     = scrape_jobs_tool_in (elements _VALID_SITES)
         (fun args =>
            if bool_decide (JobSpy.site_name args = ["indeed"; "monster"])
            then JobSpy.Returns two_jobs else JobSpy.Raises "unsupported")
         monster_request.
Proof.
  assert (Hdeclared : iterates _VALID_SITES declared_order).
  { split.
    - apply (bool_decide_unpack (NoDup declared_order)). vm_compute. exact I.
    - intros x.
      replace _VALID_SITES with (list_to_set declared_order : gset string)
        by (vm_compute; reflexivity).
      symmetry. apply elem_of_list_to_set. }
  split; [exact Hdeclared|].
  apply (scrape_jobs_tool_deterministic declared_order
           (elements _VALID_SITES)
           (fun _ => JobSpy.Returns two_jobs)
           (fun args =>
              if bool_decide (JobSpy.site_name args = ["indeed"; "monster"])
              then JobSpy.Returns two_jobs else JobSpy.Raises "unsupported")
           monster_request).
  - exact Hdeclared.
  - apply iterates_elements.
  - reflexivity.
Defined.

(** ** One listing *)

Lemma bind_ok {A B : Type} (m : res A) (k : A -> res B) (b : B) :
  m ≫= k = Ok b <-> exists a, m = Ok a /\ k a = Ok b.
Proof.
  destruct m as [a|e]; simpl; split.
  - intros H. now exists a.
  - now intros (a' & [= <-] & H).
  - discriminate.
  - now intros (a' & [=] & _).
Qed.

Lemma get_shown (job : Series) (key : string) :
  Py.str (pd.get job key (PyStr "N/A")) = shown job key.
Proof. unfold pd.get, shown. now destruct (bool_decide _). Qed.

Lemma get_absent (job : Series) (key : string) (v : pyval) :
  key ∉ sr_index job -> pd.get job key v = v.
Proof. intros H. unfold pd.get. now rewrite bool_decide_eq_false_2. Qed.

Lemma present_in_index (job : Series) (key : string) :
  present job key = true ->
  key ∈ sr_index job /\ pd.notna (row_cell (sr_cells job) key) = true.
Proof.
  unfold present, pd.get. destruct (bool_decide_reflect (key ∈ sr_index job)).
  - now split.
  - discriminate.
Qed.

Lemma mandatory_lines_text (index : nat) (job : Series) (site : string) :
  pd.get job "site" (PyStr "N/A") = PyStr site ->
  mandatory_lines index job
  = Ok [ pretty index +:+ ". " +:+ shown job "title";
         "Company: " +:+ shown job "company";
         "Location: " +:+ shown job "location";
         "Source: " +:+ Py.title_from false site ].
Proof.
  intros Hsite. unfold mandatory_lines. rewrite Hsite. simpl.
  now rewrite !get_shown.
Qed.

Lemma mandatory_lines_inv (index : nat) (job : Series) (head : list string) :
  mandatory_lines index job = Ok head ->
  exists site, pd.get job "site" (PyStr "N/A") = PyStr site.
Proof.
  unfold mandatory_lines.
  destruct (pd.get job "site" (PyStr "N/A")); simpl; try discriminate.
  intros _. now eexists.
Qed.



Lemma float_of_int_ok (z : Z) :
  (Py.round_to_53_bits (Z.abs z) <? 2 ^ 1024)%Z = true ->
  Py.float_of_int z
  = Ok (Finite (z <? 0)%Z (inject_Z (Py.round_to_53_bits (Z.abs z)))).
Proof.
  intros H. unfold Py.float_of_int. cbv zeta.
  rewrite Z.leb_antisym, H. reflexivity.
Qed.




Lemma salary_line_absent (job : Series) :
  has_salary job = false -> salary_line job = Ok [].
Proof.
  unfold has_salary, present, salary_line. now intros ->.
Qed.

Lemma salary_line_inv (job : Series) (lines : list string) :
  has_salary job = true ->
  salary_line job = Ok lines ->
  exists low high,
    Py.format_amount (pd.get job "min_amount" PyNone) = Ok low
    /\ Py.format_amount (pd.get job "max_amount" PyNone) = Ok high
    /\ lines
       = [ "Salary: " +:+ low +:+ " - " +:+ high +:+ " "
           +:+ Py.str (pd.get job "currency" (PyStr "USD")) +:+ " ("
           +:+ Py.str (pd.get job "interval" (PyStr "yearly")) +:+ ")" ].
Proof.
  unfold has_salary, present, salary_line. intros ->.
  intros (low & Hlow & H)%bind_ok. apply bind_ok in H as (high & Hhigh & [= <-]).
  now exists low, high.
Qed.



Lemma listing_parts_inv (index : nat) (job : Series) (parts : list string) :
  listing_parts index job = Ok parts ->
  exists site salary,
    pd.get job "site" (PyStr "N/A") = PyStr site
    /\ salary_line job = Ok salary
    /\ parts
       = [ pretty index +:+ ". " +:+ shown job "title";
           "Company: " +:+ shown job "company";
           "Location: " +:+ shown job "location";
           "Source: " +:+ Py.title_from false site ]
         ++ optional_line job "job_type" "Type: " ""
         ++ optional_line job "date_posted" "Posted: " ""
         ++ salary
         ++ remote_line job
         ++ optional_line job "job_url" "Apply: " ""
         ++ description_line job
         ++ optional_line job "company_industry" "Industry: " ""
         ++ optional_line job "job_level" "Level: " ""
         ++ optional_line job "skills" "Skills: " ""
         ++ optional_line job "experience_range" "Experience: " ""
         ++ optional_line job "company_rating" "Company Rating: " "/5".
Proof.
  unfold listing_parts. intros (head & Hhead & H)%bind_ok.
  apply bind_ok in H as (salary & Hsalary & [= <-]).
  destruct (mandatory_lines_inv index job head Hhead) as [site Hsite].
  rewrite (mandatory_lines_text index job site Hsite) in Hhead.
  injection Hhead as <-. now exists site, salary.
Qed.


Lemma title_from_length (previous_is_cased : bool) (s : string) :
  String.length (Py.title_from previous_is_cased s) = String.length s.
Proof.
  revert previous_is_cased.
  induction s as [|c s IH]; intros previous_is_cased; [reflexivity|].
  cbn [Py.title_from].
  destruct (Py.is_lower c); [simpl; now rewrite IH|].
  destruct (Py.is_upper c); simpl; now rewrite IH.
Qed.




(** ** The loop over the rows *)

Lemma append_assoc (s t u : string) : (s +:+ t) +:+ u = s +:+ (t +:+ u).
Proof.
  induction s as [|c s IH]; [reflexivity|].
  change (String c ((s +:+ t) +:+ u) = String c (s +:+ (t +:+ u))).
  now rewrite IH.
Qed.

Lemma append_empty (s : string) : s +:+ "" = s.
Proof.
  induction s as [|c s IH]; [reflexivity|].
  change (String c (s +:+ "") = String c s). now rewrite IH.
Qed.

Lemma join_cons (sep first : string) (others : list string) :
  exists tail, Py.join sep (first :: others) = first +:+ tail.
Proof.
  destruct others as [|second others].
  - exists "". symmetry. apply append_empty.
  - now exists (sep +:+ Py.join sep (second :: others)).
Qed.

Lemma listing_block_index (index : nat) (job : Series) (parts : list string) :
  listing_parts index job = Ok parts ->
  String.prefix (pretty index +:+ ". ") (Py.join Py.newline parts) = true.
Proof.
  intros (site & salary & _ & _ & ->)%listing_parts_inv.
  rewrite <- app_comm_cons.
  destruct (join_cons Py.newline
              (pretty index +:+ ". " +:+ shown job "title")
              ([ "Company: " +:+ shown job "company";
                 "Location: " +:+ shown job "location";
                 "Source: " +:+ Py.title_from false site ]
               ++ optional_line job "job_type" "Type: " ""
               ++ optional_line job "date_posted" "Posted: " ""
               ++ salary
               ++ remote_line job
               ++ optional_line job "job_url" "Apply: " ""
               ++ description_line job
               ++ optional_line job "company_industry" "Industry: " ""
               ++ optional_line job "job_level" "Level: " ""
               ++ optional_line job "skills" "Skills: " ""
               ++ optional_line job "experience_range" "Experience: " ""
               ++ optional_line job "company_rating" "Company Rating: " "/5"))
    as [tail Htail].
  rewrite Htail. apply prefix_append_more.
  rewrite <- append_assoc. apply prefix_append.
Qed.


Lemma listings_inv (jobs : list Series) (index : nat) (blocks : list string) :
  listings index jobs = Ok blocks ->
  length blocks = length jobs
  /\ forall k job, jobs !! k = Some job ->
       exists parts,
         listing_parts (index + k) job = Ok parts
         /\ blocks !! k = Some (Py.join Py.newline parts).
Proof.
  revert index blocks.
  induction jobs as [|job jobs IH]; intros index blocks; simpl.
  - intros [= <-]. split; [reflexivity|]. intros k job' H. inversion H.
  - intros (parts & Hparts & H)%bind_ok.
    apply bind_ok in H as (more & Hmore & [= <-]).
    destruct (IH _ _ Hmore) as [Hlen Hnth]. split; [simpl; congruence|].
    intros [|k] job' Hk; simpl in Hk.
    + injection Hk as <-. exists parts. now rewrite Nat.add_0_r.
    + destruct (Hnth k job' Hk) as (parts' & Hparts' & Hblock).
      exists parts'. now rewrite Nat.add_succ_r.
Qed.

Lemma iterrows_lookup (jobs_df : DataFrame) (k : nat) (row : gmap string pyval) :
  df_rows jobs_df !! k = Some row ->
  pd.iterrows jobs_df !! k
  = Some {| sr_index := df_columns jobs_df; sr_cells := row |}.
Proof.
  unfold pd.iterrows. generalize (df_columns jobs_df) as columns.
  intros columns. revert k.
  induction (df_rows jobs_df) as [|row' rows IH]; intros [|k] H;
    simpl in *; try discriminate.
  - now injection H as ->.
  - now apply IH.
Qed.

Lemma report_inv request sites jobs_df text :
  report request sites jobs_df = Ok text ->
  exists blocks statistics,
    listings 1 (pd.iterrows jobs_df) = Ok blocks
    /\ salary_statistics jobs_df = Ok statistics
    /\ text
       = Py.join Py.newline
           (summary_lines request sites jobs_df blocks ++ statistics).
Proof.
  unfold report. intros (blocks & Hblocks & H)%bind_ok.
  apply bind_ok in H as (statistics & Hstatistics & [= <-]).
  now exists blocks, statistics.
Qed.

(** ** The summary: columns against rows *)

Lemma present_absent_column (columns : list string) row (key : string) :
  key ∉ columns ->
  present {| sr_index := columns; sr_cells := row |} key = false.
Proof.
  intros H. unfold present, pd.get. simpl.
  now rewrite bool_decide_eq_false_2.
Qed.

Lemma present_column (columns : list string) row (key : string) :
  key ∈ columns ->
  present {| sr_index := columns; sr_cells := row |} key
  = pd.notna (row_cell row key).
Proof.
  intros H. unfold present, pd.get. simpl.
  now rewrite bool_decide_eq_true_2.
Qed.

Lemma get_column_cell (columns : list string) row (key : string) (v : pyval) :
  key ∈ columns ->
  pd.get {| sr_index := columns; sr_cells := row |} key v = row_cell row key.
Proof. intros H. unfold pd.get. simpl. now rewrite bool_decide_eq_true_2. Qed.

(** The remote count of the summary is the number of rows whose remote
    flag is present and true. *)
Lemma remote_count_rows (jobs_df : DataFrame) :
  remote_count jobs_df = length (List.filter remote_flag (pd.iterrows jobs_df)).
Proof.
  unfold remote_count, pd.get_column, pd.iterrows.
  destruct (bool_decide_reflect ("is_remote" ∈ df_columns jobs_df)) as [Hin|Hout].
  - unfold pd.sum_bool, pd.astype_bool, pd.fillna.
    induction (df_rows jobs_df) as [|row rows IH]; [reflexivity|].
    simpl. unfold remote_flag at 1.
    rewrite present_column, get_column_cell by assumption.
    destruct (row_cell row "is_remote") as [| |[|]|z|[sign x|sign] t|t|t];
      simpl; auto;
      match goal with |- context [negb ?c] => destruct c end; simpl; auto.
  - induction (df_rows jobs_df) as [|row rows IH]; [reflexivity|].
    simpl. unfold remote_flag at 1.
    now rewrite present_absent_column by assumption.
Qed.

Lemma zip_with_map {A B C D : Type} (h : B -> C -> D) (f : A -> B)
    (g : A -> C) (l : list A) :
  zip_with h (map f l) (map g l) = map (fun x => h (f x) (g x)) l.
Proof. induction l as [|x l IH]; simpl; congruence. Qed.

Lemma select_map {A : Type} (f : A -> bool) (l : list A) :
  pd.select l (map f l) = List.filter f l.
Proof.
  induction l as [|x l IH]; simpl; [reflexivity|].
  destruct (f x); congruence.
Qed.

Lemma filter_map_ext {A B : Type} (f : A -> bool) (g : B -> bool)
    (wrap : A -> B) (l : list A) :
  (forall x, g (wrap x) = f x) ->
  List.filter g (map wrap l) = map wrap (List.filter f l).
Proof.
  intros H. induction l as [|x l IH]; simpl; [reflexivity|].
  rewrite H. destruct (f x); simpl; congruence.
Qed.

Lemma has_salary_cells (columns : list string) row :
  "min_amount" ∈ columns -> "max_amount" ∈ columns ->
  has_salary {| sr_index := columns; sr_cells := row |} = salary_cells row.
Proof.
  intros Hmin Hmax. unfold has_salary, salary_cells.
  now rewrite !present_column by assumption.
Qed.

Lemma salary_rows_absent (jobs_df : DataFrame) :
  "min_amount" ∉ df_columns jobs_df \/ "max_amount" ∉ df_columns jobs_df ->
  salary_rows jobs_df = [].
Proof.
  intros Habsent. unfold salary_rows, pd.iterrows.
  induction (df_rows jobs_df) as [|row rows IH]; [reflexivity|].
  simpl. unfold has_salary at 1.
  destruct Habsent as [H|H]; rewrite (present_absent_column _ _ _ H);
    rewrite ?andb_false_r; simpl; auto.
Qed.

Lemma salary_rows_present (jobs_df : DataFrame) :
  "min_amount" ∈ df_columns jobs_df -> "max_amount" ∈ df_columns jobs_df ->
  salary_rows jobs_df
  = map (fun row => {| sr_index := df_columns jobs_df; sr_cells := row |})
        (List.filter salary_cells (df_rows jobs_df)).
Proof.
  intros Hmin Hmax. unfold salary_rows, pd.iterrows.
  apply filter_map_ext. intros row. now apply has_salary_cells.
Qed.

Lemma salary_column_present (jobs_df : DataFrame) (key : string) :
  "min_amount" ∈ df_columns jobs_df -> "max_amount" ∈ df_columns jobs_df ->
  key ∈ df_columns jobs_df ->
  salary_column jobs_df key
  = map (fun row => row_cell row key)
        (List.filter salary_cells (df_rows jobs_df)).
Proof.
  intros Hmin Hmax Hkey. unfold salary_column.
  rewrite salary_rows_present by assumption. rewrite map_map.
  apply map_ext. intros row. now apply get_column_cell.
Qed.

(** With both salary columns in the table, the statistics are computed
    on the rows that have both cells filled. *)
Lemma salary_statistics_present (jobs_df : DataFrame) :
  "min_amount" ∈ df_columns jobs_df -> "max_amount" ∈ df_columns jobs_df ->
  salary_statistics jobs_df
  = if (length (salary_rows jobs_df) =? 0)%nat then Ok []
    else
      avg_min ← df_mean jobs_df (salary_column jobs_df "min_amount");
      avg_max ← df_mean jobs_df (salary_column jobs_df "max_amount");
      low ← Py.format_amount avg_min;
      high ← Py.format_amount avg_max;
      Ok [ "Jobs with salary info: "
           +:+ pretty (length (salary_rows jobs_df));
           "Average salary range: " +:+ low +:+ " - " +:+ high ].
Proof.
  intros Hmin Hmax.
  rewrite !salary_column_present by assumption.
  rewrite salary_rows_present by assumption. rewrite length_map.
  unfold salary_statistics, pd.get_column.
  rewrite !bool_decide_eq_true_2 by assumption.
  unfold pd.mask_rows, pd.and_mask.
  rewrite !map_map, zip_with_map.
  change (fun x : gmap string pyval =>
            pd.notna (row_cell x "min_amount")
            && pd.notna (row_cell x "max_amount")) with salary_cells.
  rewrite select_map.
  unfold pd.empty, pd.len, pd.getitem, pd.get_column, pd.mean. simpl.
  rewrite !bool_decide_eq_true_2 by assumption.
  assert (Hcolumns : (length (df_columns jobs_df) =? 0)%nat = false).
  { destruct (df_columns jobs_df); [inversion Hmin | reflexivity]. }
  rewrite Hcolumns, orb_false_r.
  now destruct (length (List.filter salary_cells (df_rows jobs_df)) =? 0)%nat.
Qed.

Lemma salary_statistics_absent (jobs_df : DataFrame) :
  "min_amount" ∉ df_columns jobs_df \/ "max_amount" ∉ df_columns jobs_df ->
  salary_statistics jobs_df = Ok [].
Proof.
  intros Habsent. unfold salary_statistics, pd.get_column.
  destruct Habsent as [H|H]; rewrite (bool_decide_eq_false_2 _ H);
    [|destruct (bool_decide _)]; reflexivity.
Qed.

(** The statistics, whatever the columns of the table *)
Lemma salary_statistics_rows (jobs_df : DataFrame) :
  salary_statistics jobs_df
  = if (length (salary_rows jobs_df) =? 0)%nat then Ok []
    else
      avg_min ← df_mean jobs_df (salary_column jobs_df "min_amount");
      avg_max ← df_mean jobs_df (salary_column jobs_df "max_amount");
      low ← Py.format_amount avg_min;
      high ← Py.format_amount avg_max;
      Ok [ "Jobs with salary info: "
           +:+ pretty (length (salary_rows jobs_df));
           "Average salary range: " +:+ low +:+ " - " +:+ high ].
Proof.
  destruct (decide ("min_amount" ∈ df_columns jobs_df)) as [Hmin|Hmin];
    [destruct (decide ("max_amount" ∈ df_columns jobs_df)) as [Hmax|Hmax]|].
  - now apply salary_statistics_present.
  - rewrite salary_statistics_absent, salary_rows_absent by auto. reflexivity.
  - rewrite salary_statistics_absent, salary_rows_absent by auto. reflexivity.
Qed.

(** What the two statistics lines are, when they are computed *)
Lemma salary_statistics_inv (jobs_df : DataFrame) (statistics : list string) :
  salary_statistics jobs_df = Ok statistics ->
  (length (salary_rows jobs_df) = 0 -> statistics = [])
  /\ (0 < length (salary_rows jobs_df) ->
      exists avg_min avg_max low high,
        df_mean jobs_df (salary_column jobs_df "min_amount") = Ok avg_min
        /\ df_mean jobs_df (salary_column jobs_df "max_amount") = Ok avg_max
        /\ Py.format_amount avg_min = Ok low
        /\ Py.format_amount avg_max = Ok high
        /\ statistics
           = [ "Jobs with salary info: "
               +:+ pretty (length (salary_rows jobs_df));
               "Average salary range: " +:+ low +:+ " - " +:+ high ]).
Proof.
  rewrite salary_statistics_rows.
  destruct (length (salary_rows jobs_df)) as [|n] eqn:Hlen.
  - intros [= <-]. split; [reflexivity | lia].
  - change (S n =? 0)%nat with false. cbv iota.
    intros (avg_min & Hmin & H)%bind_ok.
    apply bind_ok in H as (avg_max & Hmax & H).
    apply bind_ok in H as (low & Hlow & H).
    apply bind_ok in H as (high & Hhigh & [= <-]).
    split; [discriminate|]. intros _.
    now exists avg_min, avg_max, low, high.
Qed.

(** ** When the report is returned *)




(** ** Rounding to zero decimal places *)

(** [round_half_even] is a rounding to a nearest integer. *)
Lemma round_half_even_nearest (x : Q) :
  (Qabs (x - inject_Z (Py.round_half_even x)) <= 1 # 2)%Q.
Proof.
  unfold Py.round_half_even.
  pose proof (Qfloor_le x) as Hlow. pose proof (Qlt_floor x) as Hhigh.
  rewrite inject_Z_plus in Hhigh. change (inject_Z 1) with 1%Q in Hhigh.
  apply Qabs_Qle_condition.
  destruct (x - inject_Z (Qfloor x) ?= 1 # 2)%Q eqn:Hcmp.
  - apply Qeq_alt in Hcmp.
    destruct (Z.even (Qfloor x)); rewrite ?inject_Z_plus;
      change (inject_Z 1) with 1%Q; split; lra.
  - apply Qlt_alt in Hcmp. split; lra.
  - apply Qgt_alt in Hcmp. rewrite inject_Z_plus.
    change (inject_Z 1) with 1%Q. split; lra.
Qed.

(** On a tie the even neighbour is taken. *)
Lemma round_half_even_tie (n : Z) :
  Py.round_half_even (inject_Z n + (1 # 2))
  = if Z.even n then n else (n + 1)%Z.
Proof.
  unfold Py.round_half_even.
  assert (Hfloor : Qfloor (inject_Z n + (1 # 2)) = n).
  { symmetry. apply Z.le_antisymm.
    - rewrite <- (Qfloor_Z n) at 1. apply Qfloor_resp_le. lra.
    - apply Z.lt_succ_r. rewrite Zlt_Qlt.
      eapply Qle_lt_trans; [apply Qfloor_le|].
      unfold Z.succ. rewrite inject_Z_plus.
      change (inject_Z 1) with 1%Q. lra. }
  rewrite Hfloor.
  assert (Hcmp : (inject_Z n + (1 # 2) - inject_Z n ?= 1 # 2)%Q = Eq)
    by (apply Qeq_alt; lra).
  now rewrite Hcmp.
Qed.

(** ** The claims on the returned text *)

Lemma results_summary_text request jobs_df :
  results_summary request jobs_df
  = "Found " +:+ pretty (length (df_rows jobs_df)) +:+ " jobs for '"
    +:+ search_term request +:+ "'"
    +:+ match location request with
        | Some place => if String.eqb place "" then "" else " in " +:+ place
        | None => ""
        end.
Proof.
  unfold results_summary, pd.len.
  destruct (location request) as [place|]; [|reflexivity].
  now destruct (String.eqb place "").
Qed.

Lemma two_jobs_returned :
  fst (scrape_jobs_tool (fun _ => JobSpy.Returns two_jobs) python_request)
  = Ok two_jobs_text.
Proof. vm_compute. reflexivity. Qed.

Section NonEmptyTable.

(** A run on valid sites in which the collaborator returns a table that
    is not empty, and the tool returns [text]. *)
Variable scrape_jobs : JobSpy.Args -> JobSpy.outcome.
Variable request : Request.
Variable jobs_df : DataFrame.
Variable text : string.

Hypothesis valid_sites :
  Forall (fun site => site ∈ _VALID_SITES) (sites_of request).
Hypothesis collaborator_returns :
  scrape_jobs (scrape_args request (sites_of request))
  = JobSpy.Returns jobs_df.
Hypothesis table_not_empty : pd.empty jobs_df = false.
Hypothesis tool_returns :
  fst (scrape_jobs_tool scrape_jobs request) = Ok text.

Lemma returned_report :
  exists blocks statistics,
    listings 1 (pd.iterrows jobs_df) = Ok blocks
    /\ salary_statistics jobs_df = Ok statistics
    /\ text
       = Py.join Py.newline
           (summary_lines request (sites_of request) jobs_df blocks
            ++ statistics).
Proof.
  apply report_inv.
  rewrite <- (tool_report scrape_jobs request jobs_df); try assumption.
  now apply invalid_sites_nil.
Qed.

(** C6. When the collaborator's table is not empty, the returned text
    holds one listing block per row: the blocks are as many as the
    rows, the block at position [k] (from 0) is the listing of row [k]
    built with display index [k + 1], it starts with that index, and
    the blocks are joined, in this order, by the separator line. *)
Theorem listings_follow_rows :
  exists blocks tail,
    text
    = Py.join Py.newline
        ([ results_summary request jobs_df; "";
           Py.join (Py.newline +:+ "---" +:+ Py.newline) blocks; "" ] ++ tail)
    /\ length blocks = length (df_rows jobs_df)
    /\ forall k row, df_rows jobs_df !! k = Some row ->
         exists parts,
           listing_parts (S k)
             {| sr_index := df_columns jobs_df; sr_cells := row |} = Ok parts
           /\ blocks !! k = Some (Py.join Py.newline parts)
           /\ String.prefix (pretty (S k) +:+ ". ")
                (Py.join Py.newline parts) = true.
Proof.
  destruct returned_report as (blocks & statistics & Hblocks & _ & ->).
  apply listings_inv in Hblocks as [Hlen Hnth].
  exists blocks. eexists. split; [reflexivity|]. split.
  - rewrite Hlen. unfold pd.iterrows. apply length_map.
  - intros k row Hrow.
    destruct (Hnth k _ (iterrows_lookup jobs_df k row Hrow))
      as (parts & Hparts & Hblock).
    exists parts. split; [exact Hparts|]. split; [exact Hblock|].
    now apply (listing_block_index (S k)
                 {| sr_index := df_columns jobs_df; sr_cells := row |}).
Qed.

(** C8. When the collaborator's table is not empty, the returned text
    is the lines below joined by newlines, in this order: the header
    with the number of rows and the search term, followed by the
    location when one was given (a text that is not empty); an empty
    line; the listing blocks joined by the line ["---"]; an empty line;
    ["Search Summary"]; the total number of rows; the searched sites in
    request order, joined by [", "]; the number of rows whose remote
    flag is present and true; and then the statistics lines, which are
    none when no row has both salary bounds and the two salary lines
    otherwise. *)
Theorem report_assembly :
  exists blocks statistics,
    listings 1 (pd.iterrows jobs_df) = Ok blocks
    /\ text
       = Py.join Py.newline
           ([ "Found " +:+ pretty (length (df_rows jobs_df)) +:+ " jobs for '"
              +:+ search_term request +:+ "'"
              +:+ match location request with
                  | Some place =>
                      if String.eqb place "" then "" else " in " +:+ place
                  | None => ""
                  end;
              "";
              Py.join (Py.newline +:+ "---" +:+ Py.newline) blocks;
              "";
              "Search Summary";
              "Total jobs found: " +:+ pretty (length (df_rows jobs_df));
              "Sites searched: " +:+ Py.join ", " (sites_of request);
              "Remote jobs: "
              +:+ pretty (length (List.filter remote_flag
                                              (pd.iterrows jobs_df))) ]
            ++ statistics)
    /\ (length (salary_rows jobs_df) = 0 -> statistics = [])
    /\ (0 < length (salary_rows jobs_df) ->
        exists averages,
          statistics
          = [ "Jobs with salary info: "
              +:+ pretty (length (salary_rows jobs_df));
              "Average salary range: " +:+ averages ]).
Proof.
  destruct returned_report as (blocks & statistics & Hblocks & Hstat & ->).
  exists blocks, statistics. split; [assumption|]. split.
  - unfold summary_lines.
    now rewrite results_summary_text, remote_count_rows.
  - apply salary_statistics_inv in Hstat as [Hnone Hsome].
    split; [assumption|]. intros Hpos.
    destruct (Hsome Hpos) as (avg_min & avg_max & low & high & _ & _ & _ & _
                              & ->).
    eauto.
Qed.

End NonEmptyTable.

(** The sample run discharges the four assumptions by evaluation. *)
Ltac sample_run :=
  first [ apply invalid_sites_nil; vm_compute; reflexivity
        | reflexivity
        | vm_compute; reflexivity ].

Lemma listings_follow_rows_witness :
  exists blocks tail,
    two_jobs_text
    = Py.join Py.newline
        ([ results_summary python_request two_jobs; "";
           Py.join (Py.newline +:+ "---" +:+ Py.newline) blocks; "" ] ++ tail)
    /\ length blocks = 2.
Proof.
  destruct (listings_follow_rows (fun _ => JobSpy.Returns two_jobs)
              python_request two_jobs two_jobs_text)
    as (blocks & tail & Htext & Hlen & _); [sample_run..|].
  exists blocks, tail. split; [exact Htext | exact Hlen].
Defined.

Lemma report_assembly_witness :
  exists blocks statistics,
    two_jobs_text
    = Py.join Py.newline
        ([ "Found 2 jobs for 'python developer' in Austin"; "";
           Py.join (Py.newline +:+ "---" +:+ Py.newline) blocks; "";
           "Search Summary"; "Total jobs found: 2"; "Sites searched: indeed";
           "Remote jobs: 1" ] ++ statistics).
Proof.
  destruct (report_assembly (fun _ => JobSpy.Returns two_jobs)
              python_request two_jobs two_jobs_text)
    as (blocks & statistics & _ & Htext & _); [sample_run..|].
  exists blocks, statistics. exact Htext.
Defined.

(** ** Raising *)




(** ** The remote line of a listing *)

(** The listing shows the remote line exactly when the flag is truthy;
    a flag that is [None], [False] or in no column gives no line. *)
Lemma remote_line_truthy (job : Series) :
  remote_line job
  = if Py.truthy (pd.get job "is_remote" PyNone)
    then ["Remote work available"] else [].
Proof. reflexivity. Qed.

Lemma remote_line_flag (job : Series) :
  remote_flag job = true -> remote_line job = ["Remote work available"].
Proof.
  unfold remote_flag, remote_line. now intros [_ ->]%andb_prop.
Qed.

Lemma remote_line_absent_column (job : Series) :
  "is_remote" ∉ sr_index job -> remote_line job = [].
Proof. intros H. unfold remote_line. now rewrite get_absent. Qed.

(** The other optional lines follow presence. *)
Lemma optional_line_present (job : Series) (key label suffix : string) :
  optional_line job key label suffix
  = if present job key
    then [label +:+ Py.str (pd.get job key PyNone) +:+ suffix] else [].
Proof. reflexivity. Qed.

Lemma description_line_present (job : Series) :
  description_line job
  = if present job "description"
    then [ "Description: "
           +:+ _trim_description (Py.str (pd.get job "description" PyNone)) 300 ]
    else [].
Proof. reflexivity. Qed.

(** A row without any optional attribute has a listing of four lines,
    and building it does not raise. *)
Lemma absent_attributes_omitted (index : nat) (job : Series) (site : string) :
  pd.get job "site" (PyStr "N/A") = PyStr site ->
  (forall key, key <> "site" -> key <> "title" -> key <> "company" ->
               key <> "location" -> pd.get job key PyNone = PyNone) ->
  listing_parts index job
  = Ok [ pretty index +:+ ". " +:+ shown job "title";
         "Company: " +:+ shown job "company";
         "Location: " +:+ shown job "location";
         "Source: " +:+ Py.title_from false site ].
Proof.
  intros Hsite Habsent. unfold listing_parts.
  rewrite (mandatory_lines_text index job site Hsite).
  unfold salary_line, optional_line, remote_line, description_line.
  rewrite !Habsent by discriminate. reflexivity.
Qed.

(** C5, at the failing input: the second row comes from a site that
    does not fill the remote flag, so the flag is not present in the
    record; the summary counts no remote job, and yet the listing of
    that row has the line ["Remote work available"]. *)
Theorem remote_line_without_flag :
  let job := {| sr_index := df_columns mixed_jobs; sr_cells := no_flag_row |} in
  present job "is_remote" = false
  /\ remote_flag job = false
  /\ remote_line job = ["Remote work available"]
  /\ remote_count mixed_jobs = 0
  /\ fst (scrape_jobs_tool (fun _ => JobSpy.Returns mixed_jobs)
            two_site_request)
     = Ok mixed_jobs_text.
Proof. vm_compute. repeat split; reflexivity. Qed.

(** * Further properties *)

(** ** Trimming *)

Lemma slice_to_append (limit : nat) (s t : string) :
  limit <= String.length s ->
  Py.slice_to limit (s +:+ t) = Py.slice_to limit s.
Proof.
  unfold Py.slice_to. revert limit.
  induction s as [|c s IH]; intros [|limit] Hle; simpl in *; try lia;
    try reflexivity.
  - now destruct t.
  - f_equal. apply IH. lia.
Qed.

Lemma slice_to_slice_to (limit : nat) (s : string) :
  Py.slice_to limit (Py.slice_to limit s) = Py.slice_to limit s.
Proof.
  unfold Py.slice_to. revert limit.
  induction s as [|c s IH]; intros [|limit]; simpl; try reflexivity.
  f_equal. apply IH.
Qed.

Lemma trim_length (text : string) (limit : Z) :
  String.length (_trim_description text limit)
  = if (Z.of_nat (String.length text) <=? limit)%Z then String.length text
    else if (0 <=? limit)%Z then Z.to_nat limit + 3
    else String.length text - Z.to_nat (- limit) + 3.
Proof.
  unfold _trim_description, Py.slice.
  destruct (Z.leb_spec (Z.of_nat (String.length text)) limit) as [Hle|Hlt];
    [reflexivity|].
  rewrite length_append.
  destruct (Z.leb_spec 0 limit); rewrite length_slice_to by lia; reflexivity.
Qed.

(** X1. With a limit that is not negative, trimming is idempotent: a
    text that was trimmed once is left unchanged by a second pass,
    although it may be longer than the limit.  A negative limit makes
    the slice drop characters from the end, and then a second pass can
    change the text again: with the limit -1, ["hello"] gives
    ["hell..."], which gives ["hell....."]. *)
Theorem trim_idempotent (text : string) (limit : Z) :
  ((0 <= limit)%Z ->
   _trim_description (_trim_description text limit) limit
   = _trim_description text limit)
  /\ _trim_description "hello" (-1) = "hell..."
  /\ _trim_description "hell..." (-1) = "hell.....".
Proof.
  split; [|split; reflexivity]. intros Hlimit.
  destruct (Z.leb_spec (Z.of_nat (String.length text)) limit) as [Hle|Hlt].
  - rewrite (trim_short text limit Hle). now apply trim_short.
  - rewrite (trim_long text limit Hlt), slice_nonneg by assumption.
    rewrite trim_long
      by (rewrite length_append, length_slice_to by lia; simpl; lia).
    rewrite slice_nonneg by assumption.
    rewrite slice_to_append by (rewrite length_slice_to; lia).
    now rewrite slice_to_slice_to.
Qed.

Lemma trim_idempotent_witness :
  _trim_description (_trim_description "Build and run data pipelines." 10) 10
  = _trim_description "Build and run data pipelines." 10.
Proof.
  apply (trim_idempotent "Build and run data pipelines." 10). lia.
Defined.

(** X2. The length of the trimmed text, for every limit.  With a limit
    that is not negative the trimmed text has at most [limit + 3]
    characters, and it is longer than the text it was made from
    exactly when that text exceeds the limit by one or two characters.
    With a negative limit the text is always cut: what is left is the
    text without its last [- limit] characters, followed by the three
    dots. *)
Theorem trim_length_bounds (text : string) (limit : Z) :
  ((0 <= limit)%Z ->
   (Z.of_nat (String.length (_trim_description text limit)) <= limit + 3)%Z
   /\ (String.length text < String.length (_trim_description text limit)
       <-> (limit < Z.of_nat (String.length text) < limit + 3)%Z))
  /\ ((limit < 0)%Z ->
      _trim_description text limit
      = Py.slice_to (String.length text - Z.to_nat (- limit)) text +:+ "..."
      /\ String.length (_trim_description text limit)
         = String.length text - Z.to_nat (- limit) + 3).
Proof.
  rewrite trim_length. split.
  - intros Hlimit.
    destruct (Z.leb_spec (Z.of_nat (String.length text)) limit);
      destruct (Z.leb_spec 0 limit); lia.
  - intros Hlimit. rewrite trim_long, slice_negative by lia.
    split; [reflexivity|].
    destruct (Z.leb_spec (Z.of_nat (String.length text)) limit);
      destruct (Z.leb_spec 0 limit); lia.
Qed.

Lemma trim_length_bounds_witness :
  (Z.of_nat (String.length
               (_trim_description "Build and run data pipelines." 10))
   <= 10 + 3)%Z
  /\ _trim_description "Build and run data pipelines." (-11)
     = "Build and run data..."
  /\ _trim_description "hello" (-7) = "...".
Proof.
  split; [|split].
  - apply (trim_length_bounds "Build and run data pipelines." 10). lia.
  - apply (trim_length_bounds "Build and run data pipelines." (-11)). lia.
  - apply (trim_length_bounds "hello" (-7)). lia.
Defined.

(** X3. A listing has at most one description line, and that line has
    at most 316 characters: the label and a description of at most
    303. *)
Theorem description_line_bounded (job : Series) :
  length (description_line job) <= 1
  /\ Forall (fun line => String.length line <= 316) (description_line job).
Proof.
  unfold description_line.
  destruct (pd.notna (pd.get job "description" PyNone)); simpl.
  - split; [lia|]. constructor; [|constructor].
    rewrite length_append.
    rewrite trim_length. simpl String.length at 1.
    destruct (Z.leb_spec
                (Z.of_nat
                   (String.length (Py.str (pd.get job "description" PyNone))))
                300); simpl; lia.
  - split; [lia | constructor].
Qed.

(** ** The call to the collaborator *)

Lemma tool_report_trace scrape_jobs request jobs_df :
  invalid_sites (sites_of request) = [] ->
  scrape_jobs (scrape_args request (sites_of request))
  = JobSpy.Returns jobs_df ->
  pd.empty jobs_df = false ->
  snd (scrape_jobs_tool scrape_jobs request)
  = started request :: Call (scrape_args request (sites_of request))
    :: match report request (sites_of request) jobs_df with
       | Ok _ =>
           [LogInfo ("Job search completed for '"
                     +:+ search_term request +:+ "'")]
       | Raise _ => []
       end.
Proof.
  intros Hvalid Hcall Hempty. unfold scrape_jobs_tool, scrape_jobs_tool_in.
  rewrite Hvalid, Hcall, Hempty.
  destruct (report request (sites_of request) jobs_df); reflexivity.
Qed.

Lemma calls_of_tool scrape_jobs request :
  calls (snd (scrape_jobs_tool scrape_jobs request))
  = match invalid_sites (sites_of request) with
    | [] => [scrape_args request (sites_of request)]
    | _ :: _ => []
    end.
Proof.
  destruct (invalid_sites (sites_of request)) as [|site invalid] eqn:Hsites.
  - destruct (scrape_jobs (scrape_args request (sites_of request)))
      as [jobs_df|exc|exc] eqn:Hcall.
    + destruct (pd.empty jobs_df) eqn:Hempty.
      * now rewrite (tool_empty scrape_jobs request jobs_df).
      * rewrite (tool_report_trace scrape_jobs request jobs_df) by assumption.
        now destruct (report request (sites_of request) jobs_df).
    + now rewrite (tool_raises scrape_jobs request exc).
    + now rewrite (tool_interrupted scrape_jobs request exc).
  - rewrite tool_invalid by (rewrite Hsites; discriminate). reflexivity.
Qed.

(** X4. In every run the collaborator is called at most once, and it
    is called exactly when all the requested sites are valid, whatever
    happens afterwards (error, empty table, report or exception).  The
    call hands on the site list and each parameter of the request
    unchanged and asks for descriptions in markdown. *)
Theorem collaborator_called_once scrape_jobs request :
  length (calls (snd (scrape_jobs_tool scrape_jobs request))) <= 1
  /\ (Forall (fun site => site ∈ _VALID_SITES) (sites_of request)
      <-> calls (snd (scrape_jobs_tool scrape_jobs request)) <> [])
  /\ forall args,
       args ∈ calls (snd (scrape_jobs_tool scrape_jobs request)) ->
       JobSpy.description_format args = "markdown"
       /\ JobSpy.site_name args = sites_of request
       /\ JobSpy.search_term args = search_term request
       /\ JobSpy.location args = location request
       /\ JobSpy.results_wanted args = results_wanted request
       /\ JobSpy.job_type args = job_type request
       /\ JobSpy.is_remote args = is_remote request
       /\ JobSpy.hours_old args = hours_old request
       /\ JobSpy.distance args = distance request
       /\ JobSpy.easy_apply args = easy_apply request
       /\ JobSpy.country_indeed args = country_indeed request
       /\ JobSpy.linkedin_fetch_description args
          = linkedin_fetch_description request
       /\ JobSpy.offset args = offset request
       /\ JobSpy.verbose args = verbose request.
Proof.
  rewrite calls_of_tool, <- invalid_sites_nil.
  destruct (invalid_sites (sites_of request)) as [|site invalid].
  - split; [simpl; lia|]. split; [split; [discriminate | reflexivity]|].
    intros args ->%list_elem_of_singleton. repeat split.
  - split; [simpl; lia|]. split; [split; [discriminate | congruence]|].
    intros args Hin. inversion Hin.
Qed.

(** X5. When the site list is omitted the collaborator is called with
    the four default sites, which pass the validation; an explicitly
    empty site list is not replaced by the defaults: it passes the
    validation and the collaborator is called with no site at all. *)
Theorem omitted_and_empty_site_lists scrape_jobs request :
  (site_name request = None ->
   calls (snd (scrape_jobs_tool scrape_jobs request))
   = [scrape_args request ["indeed"; "linkedin"; "zip_recruiter"; "google"]])
  /\ (site_name request = Some [] ->
      calls (snd (scrape_jobs_tool scrape_jobs request))
      = [scrape_args request []]).
Proof.
  rewrite calls_of_tool. unfold sites_of.
  split; intros ->; reflexivity.
Qed.

(** ** What the request shows through *)

Lemma report_same_display request request' sites jobs_df :
  search_term request = search_term request' ->
  location request = location request' ->
  report request sites jobs_df = report request' sites jobs_df.
Proof.
  intros Hterm Hlocation. unfold report, summary_lines, results_summary.
  now rewrite Hterm, Hlocation.
Qed.

(** X6. Of the request only the search term, the location and the
    site list show in what the tool returns; the other parameters
    (result limit, filters, offset, ...) reach the collaborator and
    nothing else: two requests that agree on the three, run against
    collaborators that respond alike, return the same text.  In
    particular the tool does not cut the table down to
    [results_wanted] rows. *)
Theorem only_term_location_sites_show scrape_jobs scrape_jobs'
    request request' :
  same_display request request' ->
  scrape_jobs (scrape_args request (sites_of request))
  = scrape_jobs' (scrape_args request' (sites_of request')) ->
  fst (scrape_jobs_tool scrape_jobs request)
  = fst (scrape_jobs_tool scrape_jobs' request').
Proof.
  intros (Hterm & Hlocation & Hsites) Hsame.
  assert (Hsites' : sites_of request = sites_of request')
    by (unfold sites_of; now rewrite Hsites).
  unfold scrape_jobs_tool, scrape_jobs_tool_in. rewrite <- Hsame, <- Hsites', <- Hterm.
  destruct (invalid_sites (sites_of request)); [|reflexivity].
  destruct (scrape_jobs (scrape_args request (sites_of request)))
    as [jobs_df|exc|exc]; [|reflexivity..].
  destruct (pd.empty jobs_df); [reflexivity|].
  rewrite (report_same_display request request') by assumption.
  now destruct (report request' (sites_of request) jobs_df).
Qed.

Lemma only_term_location_sites_show_witness :
  fst (scrape_jobs_tool (fun _ => JobSpy.Returns two_jobs) python_request)
  = fst (scrape_jobs_tool (fun _ => JobSpy.Returns two_jobs)
           {| search_term := "python developer"; location := Some "Austin";
              site_name := Some ["indeed"]; results_wanted := 1;
              job_type := Some "contract"; is_remote := true;
              hours_old := Some 24%Z; distance := 5; easy_apply := true;
              country_indeed := "uk"; linkedin_fetch_description := true;
              offset := 10; verbose := 0 |}).
Proof.
  apply only_term_location_sites_show.
  - repeat split.
  - reflexivity.
Defined.

(** ** The exceptions that escape *)









(** ** Telling the outcomes apart *)

Lemma prefixes_of_invalid (invalid : list string) :
  String.prefix "Error: invalid site names" (invalid_sites_error invalid) = true
  /\ String.prefix "Error scraping jobs: " (invalid_sites_error invalid) = false
  /\ String.prefix "No jobs found" (invalid_sites_error invalid) = false
  /\ String.prefix "Found " (invalid_sites_error invalid) = false.
Proof. repeat split; reflexivity. Qed.

Lemma prefixes_of_raises (exc : string) :
  String.prefix "Error: invalid site names" ("Error scraping jobs: " +:+ exc)
  = false
  /\ String.prefix "Error scraping jobs: " ("Error scraping jobs: " +:+ exc)
     = true
  /\ String.prefix "No jobs found" ("Error scraping jobs: " +:+ exc) = false
  /\ String.prefix "Found " ("Error scraping jobs: " +:+ exc) = false.
Proof. repeat split; try reflexivity. apply prefix_append. Qed.

Lemma prefixes_of_empty :
  String.prefix "Error: invalid site names" no_jobs_message = false
  /\ String.prefix "Error scraping jobs: " no_jobs_message = false
  /\ String.prefix "No jobs found" no_jobs_message = true
  /\ String.prefix "Found " no_jobs_message = false.
Proof. repeat split; reflexivity. Qed.

Lemma prefixes_of_report request sites jobs_df blocks statistics :
  let text :=
    Py.join Py.newline
      (summary_lines request sites jobs_df blocks ++ statistics) in
  String.prefix "Error: invalid site names" text = false
  /\ String.prefix "Error scraping jobs: " text = false
  /\ String.prefix "No jobs found" text = false
  /\ String.prefix "Found " text = true.
Proof.
  repeat split; try reflexivity.
  unfold summary_lines. rewrite <- app_comm_cons.
  destruct (join_cons Py.newline (results_summary request jobs_df)
              (["";
                Py.join separator blocks;
                "";
                "Search Summary";
                "Total jobs found: " +:+ pretty (pd.len jobs_df);
                "Sites searched: " +:+ Py.join ", " sites;
                "Remote jobs: " +:+ pretty (remote_count jobs_df)]
               ++ statistics)) as [tail ->].
  apply prefix_append_more, prefix_append.
Qed.

(** Closes the equivalences between a computed prefix test and the
    description of a run, once the run is known. *)
Ltac outcome_cases :=
  split; [|split; [|split]]; (split; intros H);
  try discriminate H; try reflexivity;
  try (split; [reflexivity | eauto]); try congruence;
  try (destruct H as (H0 & x & H1);
       first [ discriminate H0
             | discriminate H1
             | destruct H1 as [H1 H2];
               first [discriminate H1 | injection H1 as <-; congruence] ]).

(** X8. The opening words of a returned text tell which way the run
    went, and they do so without overlap: the text starts with
    ["Error: invalid site names"] exactly when a requested site is
    invalid, with ["Error scraping jobs: "] exactly when the
    collaborator raised, with ["No jobs found"] exactly when its table
    was empty, and with ["Found "] exactly when a report was built. *)
Theorem prefixes_tell_outcomes scrape_jobs request text :
  fst (scrape_jobs_tool scrape_jobs request) = Ok text ->
  (String.prefix "Error: invalid site names" text = true
   <-> invalid_sites (sites_of request) <> [])
  /\ (String.prefix "Error scraping jobs: " text = true
      <-> invalid_sites (sites_of request) = []
          /\ exists exc,
               scrape_jobs (scrape_args request (sites_of request))
               = JobSpy.Raises exc)
  /\ (String.prefix "No jobs found" text = true
      <-> invalid_sites (sites_of request) = []
          /\ exists jobs_df,
               scrape_jobs (scrape_args request (sites_of request))
               = JobSpy.Returns jobs_df /\ pd.empty jobs_df = true)
  /\ (String.prefix "Found " text = true
      <-> invalid_sites (sites_of request) = []
          /\ exists jobs_df,
               scrape_jobs (scrape_args request (sites_of request))
               = JobSpy.Returns jobs_df /\ pd.empty jobs_df = false).
Proof.
  intros Htext.
  destruct (invalid_sites (sites_of request)) as [|site invalid] eqn:Hsites.
  - destruct (scrape_jobs (scrape_args request (sites_of request)))
      as [jobs_df|exc|exc] eqn:Hcall;
      [| |rewrite (tool_interrupted scrape_jobs request exc) in Htext
            by assumption; discriminate].
    + destruct (pd.empty jobs_df) eqn:Hempty.
      * rewrite (tool_empty scrape_jobs request jobs_df) in Htext
          by assumption.
        injection Htext as <-.
        destruct prefixes_of_empty as (-> & -> & -> & ->).
        outcome_cases.
      * rewrite (tool_report scrape_jobs request jobs_df) in Htext
          by assumption.
        apply report_inv in Htext as (blocks & statistics & _ & _ & ->).
        destruct (prefixes_of_report request (sites_of request) jobs_df
                    blocks statistics) as (-> & -> & -> & ->).
        outcome_cases.
    + rewrite (tool_raises scrape_jobs request exc) in Htext by assumption.
      injection Htext as <-.
      destruct (prefixes_of_raises exc) as (-> & -> & -> & ->).
      outcome_cases.
  - rewrite tool_invalid in Htext by (rewrite Hsites; discriminate).
    injection Htext as <-. rewrite Hsites.
    destruct (prefixes_of_invalid (site :: invalid)) as (-> & -> & -> & ->).
    outcome_cases.
Qed.

Lemma prefixes_tell_outcomes_witness :
  String.prefix "Found " two_jobs_text = true
  <-> invalid_sites (sites_of python_request) = []
      /\ exists jobs_df,
           JobSpy.Returns two_jobs = JobSpy.Returns jobs_df
           /\ pd.empty jobs_df = false.
Proof.
  apply (prefixes_tell_outcomes (fun _ => JobSpy.Returns two_jobs)
           python_request two_jobs_text).
  vm_compute. reflexivity.
Defined.

(** ** Listings against the summary *)

Lemma filter_split_length {A : Type} (f g h : A -> bool) (l : list A) :
  (forall x, f x = g x || h x) ->
  (forall x, g x && h x = false) ->
  length (List.filter f l)
  = length (List.filter g l) + length (List.filter h l).
Proof.
  intros Hor Hdisjoint. induction l as [|x l IH]; simpl; [reflexivity|].
  rewrite Hor. specialize (Hdisjoint x).
  destruct (g x), (h x); simpl in *; try discriminate; lia.
Qed.

Lemma shows_remote_truthy (job : Series) :
  shows_remote job = Py.truthy (pd.get job "is_remote" PyNone).
Proof.
  unfold shows_remote, remote_line.
  now destruct (Py.truthy (pd.get job "is_remote" PyNone)).
Qed.

Lemma truthy_flag_or_nan (job : Series) :
  shows_remote job
  = remote_flag job || is_nan (pd.get job "is_remote" PyNone).
Proof.
  rewrite shows_remote_truthy. unfold remote_flag, present.
  destruct (pd.get job "is_remote" PyNone); simpl;
    rewrite ?orb_false_r; reflexivity.
Qed.

(** X9. The listings that show ["Remote work available"] are the rows
    counted as remote by the summary together with the rows whose
    remote flag is NaN.  So the summary's remote count never exceeds
    the number of listings marked remote, and the two agree exactly
    when no row has a NaN flag. *)
Theorem remote_lines_and_count (jobs_df : DataFrame) :
  length (List.filter shows_remote (pd.iterrows jobs_df))
  = remote_count jobs_df
    + length (List.filter
                (fun job => is_nan (pd.get job "is_remote" PyNone))
                (pd.iterrows jobs_df))
  /\ remote_count jobs_df
     <= length (List.filter shows_remote (pd.iterrows jobs_df))
     <= pd.len jobs_df.
Proof.
  assert (Hsum :
    length (List.filter shows_remote (pd.iterrows jobs_df))
    = remote_count jobs_df
      + length (List.filter
                  (fun job => is_nan (pd.get job "is_remote" PyNone))
                  (pd.iterrows jobs_df))).
  { rewrite remote_count_rows. apply filter_split_length.
    - apply truthy_flag_or_nan.
    - intros job. unfold remote_flag, present.
      destruct (pd.get job "is_remote" PyNone); simpl;
        rewrite ?andb_false_r; reflexivity. }
  split; [exact Hsum|]. split; [lia|].
  etransitivity; [apply List.filter_length_le|].
  unfold pd.iterrows, pd.len. now rewrite length_map.
Qed.

Lemma optional_line_length (job : Series) (key label suffix : string) :
  length (optional_line job key label suffix)
  = if present job key then 1 else 0.
Proof. rewrite optional_line_present. now destruct (present job key). Qed.

Lemma salary_line_length (job : Series) (lines : list string) :
  salary_line job = Ok lines ->
  length lines = if has_salary job then 1 else 0.
Proof.
  destruct (has_salary job) eqn:Hsalary.
  - now intros (low & high & _ & _ & ->)%salary_line_inv.
  - rewrite salary_line_absent by assumption. now intros [= <-].
Qed.

(** X10. A listing has the four mandatory lines and one more line for
    each optional attribute that is present (job type, posting date,
    application URL, description, industry, level, skills, experience
    range, company rating), one for the salary when both bounds are
    present and one when the remote flag is truthy: between 4 and 15
    lines in all. *)
Theorem listing_size (index : nat) (job : Series) (parts : list string) :
  listing_parts index job = Ok parts ->
  length parts
  = 4
    + length (List.filter (present job)
                [ "job_type"; "date_posted"; "job_url"; "description";
                  "company_industry"; "job_level"; "skills";
                  "experience_range"; "company_rating" ])
    + (if has_salary job then 1 else 0)
    + (if shows_remote job then 1 else 0)
  /\ 4 <= length parts <= 15.
Proof.
  intros (site & salary & _ & Hsalary & ->)%listing_parts_inv.
  apply salary_line_length in Hsalary.
  assert (Hremote :
    length (remote_line job) = if shows_remote job then 1 else 0)
    by (rewrite shows_remote_truthy; unfold remote_line;
        now destruct (Py.truthy (pd.get job "is_remote" PyNone))).
  assert (Hdescription :
    length (description_line job)
    = if present job "description" then 1 else 0)
    by (rewrite description_line_present;
        now destruct (present job "description")).
  rewrite !length_app, !optional_line_length, Hsalary, Hremote, Hdescription.
  simpl.
  destruct (present job "job_type"), (present job "date_posted"),
    (present job "job_url"), (present job "description"),
    (present job "company_industry"), (present job "job_level"),
    (present job "skills"), (present job "experience_range"),
    (present job "company_rating"), (has_salary job), (shows_remote job);
    simpl; lia.
Qed.

Lemma listing_size_witness :
  exists parts,
    listing_parts 1 {| sr_index := job_columns; sr_cells := full_row |}
    = Ok parts
    /\ length parts = 11.
Proof.
  destruct (listing_parts 1 {| sr_index := job_columns; sr_cells := full_row |})
    as [parts|e] eqn:Hparts; [|vm_compute in Hparts; discriminate Hparts].
  exists parts. split; [reflexivity|].
  destruct (listing_size 1 _ parts Hparts) as [-> _].
  vm_compute. reflexivity.
Defined.

Lemma shows_salary_has_salary (index : nat) (job : Series)
    (parts : list string) :
  listing_parts index job = Ok parts -> shows_salary job = has_salary job.
Proof.
  intros (site & salary & _ & Hsalary & _)%listing_parts_inv.
  unfold shows_salary. rewrite Hsalary.
  apply salary_line_length in Hsalary.
  destruct (has_salary job), salary; simpl in *; congruence.
Qed.

Lemma shown_salary_rows (jobs_df : DataFrame) (blocks : list string) :
  listings 1 (pd.iterrows jobs_df) = Ok blocks ->
  List.filter shows_salary (pd.iterrows jobs_df) = salary_rows jobs_df.
Proof.
  intros [_ Hnth]%listings_inv. unfold salary_rows.
  apply List.filter_ext_in. intros job Hin.
  apply list_elem_of_In, list_elem_of_lookup in Hin as [k Hk].
  destruct (Hnth k job Hk) as (parts & Hparts & _).
  eapply shows_salary_has_salary. exact Hparts.
Qed.

(** X11. In a report the summary and the listings agree on the
    salaries: [salary_statistics] gives no line when no listing shows
    a salary line, and otherwise its first line,
    ["Jobs with salary info: N"], counts exactly the listings that
    show a salary line, and is followed by the line of the averages. *)
Theorem salary_lines_and_count (jobs_df : DataFrame)
    (blocks statistics : list string) :
  listings 1 (pd.iterrows jobs_df) = Ok blocks ->
  salary_statistics jobs_df = Ok statistics ->
  (List.filter shows_salary (pd.iterrows jobs_df) = [] -> statistics = [])
  /\ (List.filter shows_salary (pd.iterrows jobs_df) <> [] ->
      exists averages,
        statistics
        = [ "Jobs with salary info: "
            +:+ pretty (length (List.filter shows_salary
                                            (pd.iterrows jobs_df)));
            "Average salary range: " +:+ averages ]).
Proof.
  intros Hblocks [Hnone Hsome]%salary_statistics_inv.
  rewrite (shown_salary_rows jobs_df blocks Hblocks). split.
  - intros Hrows. apply Hnone. now rewrite Hrows.
  - intros Hrows.
    destruct Hsome as (avg_min & avg_max & low & high & _ & _ & _ & _ & ->).
    + destruct (salary_rows jobs_df); [congruence | simpl; lia].
    + eauto.
Qed.

Lemma salary_lines_and_count_witness :
  exists averages,
    salary_statistics two_jobs
    = Ok [ "Jobs with salary info: 1"; "Average salary range: " +:+ averages ].
Proof.
  destruct (listings 1 (pd.iterrows two_jobs)) as [blocks|e] eqn:Hblocks;
    [|vm_compute in Hblocks; discriminate Hblocks].
  destruct (salary_statistics two_jobs) as [statistics|e] eqn:Hstatistics;
    [|vm_compute in Hstatistics; discriminate Hstatistics].
  destruct (salary_lines_and_count two_jobs blocks statistics Hblocks
              Hstatistics) as [_ Hsome].
  destruct Hsome as [averages ->]; [vm_compute; discriminate|].
  exists averages. reflexivity.
Defined.

(** ** Amounts *)

Lemma round_half_even_integer (n : Z) :
  Py.round_half_even (inject_Z n) = n.
Proof.
  unfold Py.round_half_even. rewrite Qfloor_Z.
  assert (Hcmp : (inject_Z n - inject_Z n ?= 1 # 2)%Q = Lt)
    by (apply Qlt_alt; unfold Qminus; rewrite Qplus_opp_r; reflexivity).
  now rewrite Hcmp.
Qed.

Lemma contains_append (c : ascii) (s t : string) :
  Py.contains c (s +:+ t) = Py.contains c s || Py.contains c t.
Proof.
  induction s as [|d s IH]; [reflexivity|].
  change (String d s +:+ t) with (String d (s +:+ t)). simpl.
  rewrite IH. now rewrite orb_assoc.
Qed.

Lemma strip_thousands (digits : string) :
  Py.contains "," digits = false ->
  strip_commas (Py.thousands digits) = digits.
Proof.
  induction digits as [|d rest IH]; [reflexivity|]. intros Hcomma.
  change (Ascii.eqb "," d || Py.contains "," rest = false) in Hcomma.
  apply orb_false_elim in Hcomma as [Hd Hrest].
  rewrite Ascii.eqb_sym in Hd.
  change (Py.thousands (String d rest))
    with (String d (if (0 <? String.length rest)%nat
                       && (String.length rest mod 3 =? 0)%nat
                    then "," +:+ Py.thousands rest
                    else Py.thousands rest)).
  cbn [strip_commas]. rewrite Hd. f_equal.
  destruct ((0 <? String.length rest)%nat
            && (String.length rest mod 3 =? 0)%nat).
  - change ("," +:+ Py.thousands rest)
      with (String "," (Py.thousands rest)).
    cbn [strip_commas]. change (Ascii.eqb "," ",") with true.
    now apply IH.
  - now apply IH.
Qed.

Lemma pretty_N_char_no_comma (x : N) :
  Ascii.eqb "," (pretty_N_char x) = false.
Proof.
  unfold pretty_N_char. destruct x as [|p]; [reflexivity|].
  do 4 (destruct p as [p|p|]; try reflexivity).
Qed.

Lemma pretty_N_go_no_comma (x : N) (s : string) :
  Py.contains "," s = false -> Py.contains "," (pretty_N_go x s) = false.
Proof.
  revert s. induction (N.lt_wf_0 x) as [x _ IH]. intros s Hs.
  assert (x = 0 \/ 0 < x)%N as [->|Hpos] by lia.
  - now rewrite pretty_N_go_0.
  - rewrite pretty_N_go_step by assumption. apply IH.
    + apply N.div_lt; lia.
    + cbn [Py.contains]. now rewrite pretty_N_char_no_comma, Hs.
Qed.

Lemma pretty_N_no_comma (x : N) : Py.contains "," (pretty x) = false.
Proof.
  unfold pretty, pretty_N. destruct (decide (x = 0%N)); [reflexivity|].
  now apply pretty_N_go_no_comma.
Qed.

Lemma thousands_pretty_nonneg (n : Z) :
  (0 <= n)%Z -> strip_commas (Py.thousands (pretty n)) = pretty n.
Proof.
  intros Hn. destruct n as [|p|p]; [reflexivity| |lia].
  change (pretty (Z.pos p)) with (pretty (N.pos p)).
  apply strip_thousands, pretty_N_no_comma.
Qed.

Lemma format_f0_integer (negative : bool) (n : Z) :
  (0 <= n)%Z ->
  strip_commas (Py.format_f0 (Finite negative (inject_Z n)))
  = (if negative then "-" else "") +:+ pretty n.
Proof.
  intros Hn. unfold Py.format_f0.
  change (Qabs (inject_Z n)) with (inject_Z (Z.abs n)).
  rewrite Z.abs_eq, round_half_even_integer by assumption.
  destruct negative.
  - change ("-" +:+ Py.thousands (pretty n))
      with (String "-" (Py.thousands (pretty n))).
    cbn [strip_commas]. change (Ascii.eqb "-" ",") with false. cbv iota.
    now rewrite thousands_pretty_nonneg.
  - change ("" +:+ Py.thousands (pretty n)) with (Py.thousands (pretty n)).
    now apply thousands_pretty_nonneg.
Qed.

(** Up to [2 ^ 53] the conversion of an [int] to a float is exact. *)
Lemma round_to_53_bits_small (n : Z) :
  (0 <= n <= 2 ^ 53)%Z -> Py.round_to_53_bits n = n.
Proof.
  intros Hn.
  assert (n = 2 ^ 53 \/ n < 2 ^ 53)%Z as [->|Hlt] by lia;
    [vm_compute; reflexivity|].
  unfold Py.round_to_53_bits. cbv zeta.
  assert (Hlog : (Z.log2 n < 53)%Z).
  { assert (n = 0 \/ 0 < n)%Z as [->|Hpos] by lia; [reflexivity|].
    now apply Z.log2_lt_pow2. }
  destruct (Z.leb_spec (Z.log2 n + 1 - 53) 0); [reflexivity | lia].
Qed.

Lemma pretty_Z_sign (z : Z) :
  pretty z = (if (z <? 0)%Z then "-" else "") +:+ pretty (Z.abs z).
Proof. destruct z; reflexivity. Qed.

(** X12. A salary bound that is a whole number is rendered without
    rounding, as long as a float can hold it.  For an [int] of
    magnitude at most [2 ^ 53] the text of the amount, its grouping
    commas removed, is the decimal numeral of that number; so it is
    for a float with an integral value, whose sign is printed even on
    zero.  Beyond [2 ^ 53] the conversion to a float rounds:
    [2 ^ 53 + 1] is shown as 9,007,199,254,740,992. *)
Theorem whole_amounts_exact (z : Z) :
  ((Z.abs z <= 2 ^ 53)%Z ->
   exists text,
     Py.format_amount (PyInt z) = Ok text /\ strip_commas text = pretty z)
  /\ ((0 <= z)%Z ->
      forall (negative : bool) (text : string),
      exists amount,
        Py.format_amount (PyFloat (Finite negative (inject_Z z)) text)
        = Ok amount
        /\ strip_commas amount
           = (if negative then "-" else "") +:+ pretty z)
  /\ Py.format_amount (PyInt (2 ^ 53 + 1)) = Ok "9,007,199,254,740,992"
  /\ Py.format_amount (PyFloat (Finite true 0) "-0.0") = Ok "-0".
Proof.
  split; [|split; [|split; vm_compute; reflexivity]].
  - intros Hsmall. unfold Py.format_amount.
    assert (Hexact : Py.round_to_53_bits (Z.abs z) = Z.abs z)
      by (apply round_to_53_bits_small; lia).
    rewrite float_of_int_ok
      by (rewrite Hexact; apply Z.ltb_lt;
          apply Z.le_lt_trans with (2 ^ 53)%Z; [assumption | reflexivity]).
    rewrite Hexact. eexists. split; [reflexivity|].
    rewrite format_f0_integer by lia. symmetry. apply pretty_Z_sign.
  - intros Hz negative text. eexists. split; [reflexivity|].
    now apply format_f0_integer.
Qed.

Lemma whole_amounts_exact_witness :
  (exists text,
     Py.format_amount (PyInt (-120001)) = Ok text
     /\ strip_commas text = "-120001")
  /\ exists amount,
       Py.format_amount (PyFloat (Finite false 120001) "120001.0") = Ok amount
       /\ strip_commas amount = "120001".
Proof.
  split.
  - apply (whole_amounts_exact (-120001)). vm_compute. discriminate.
  - apply (whole_amounts_exact 120001); lia.
Defined.

(** ** Title case *)

Lemma to_upper_is_upper (c : ascii) :
  Py.is_lower c = true ->
  Py.is_lower (Py.to_upper c) = false /\ Py.is_upper (Py.to_upper c) = true.
Proof.
  destruct c as [[] [] [] [] [] [] [] []]; vm_compute;
    first [discriminate | split; reflexivity].
Qed.

Lemma to_lower_is_lower (c : ascii) :
  Py.is_upper c = true -> Py.is_lower (Py.to_lower c) = true.
Proof.
  destruct c as [[] [] [] [] [] [] [] []]; vm_compute;
    first [discriminate | reflexivity].
Qed.

Lemma upper_not_lower (c : ascii) :
  Py.is_upper c = true -> Py.is_lower c = false.
Proof.
  destruct c as [[] [] [] [] [] [] [] []]; vm_compute;
    first [discriminate | reflexivity].
Qed.

Lemma title_from_idempotent (cased : bool) (s : string) :
  Py.title_from cased (Py.title_from cased s) = Py.title_from cased s.
Proof.
  revert cased. induction s as [|c s IH]; intros cased; [reflexivity|].
  cbn [Py.title_from].
  destruct (Py.is_lower c) eqn:Hlower.
  - destruct cased; cbn [Py.title_from].
    + now rewrite Hlower, IH.
    + destruct (to_upper_is_upper c Hlower) as [-> ->]. now rewrite IH.
  - destruct (Py.is_upper c) eqn:Hupper; cbn [Py.title_from].
    + destruct cased.
      * rewrite (to_lower_is_lower c Hupper). now rewrite IH.
      * now rewrite Hlower, Hupper, IH.
    + now rewrite Hlower, Hupper, IH.
Qed.

(** X14. The source shown in a listing has as many characters as the
    site value, and title-casing it again changes nothing. *)
Theorem title_case_stable (site shown_source : string) :
  Py.title (PyStr site) = Ok shown_source ->
  String.length shown_source = String.length site
  /\ Py.title (PyStr shown_source) = Ok shown_source.
Proof.
  simpl. intros [= <-]. split.
  - apply title_from_length.
  - now rewrite title_from_idempotent.
Qed.

Lemma title_case_stable_witness :
  Py.title (PyStr "Zip_Recruiter") = Ok "Zip_Recruiter".
Proof.
  apply (title_case_stable "zip_recruiter" "Zip_Recruiter").
  reflexivity.
Defined.

(** ** The reference listings *)

Lemma valid_sites_described :
  _VALID_SITES = list_to_set (map fst sites_info).
Proof. vm_compute. reflexivity. Qed.

Lemma described_site (site : string) :
  site ∈ _VALID_SITES <-> exists description, (site, description) ∈ sites_info.
Proof.
  rewrite valid_sites_described, elem_of_list_to_set.
  rewrite list_elem_of_In, List.in_map_iff. split.
  - intros ([site' description] & <- & Hin%list_elem_of_In). eauto.
  - intros (description & Hin%list_elem_of_In).
    now exists (site, description).
Qed.

(** X15. The sites that [get_supported_sites] describes are exactly
    the sites that [scrape_jobs_tool] accepts: each valid site has an
    entry, whose line is part of the listing, and a request reaches the
    collaborator exactly when every requested site has an entry. *)
Theorem described_sites_are_accepted :
  (forall site,
     site ∈ _VALID_SITES
     <-> exists description, (site, description) ∈ sites_info)
  /\ (forall site description,
        (site, description) ∈ sites_info ->
        "- " +:+ site +:+ ": " +:+ description ∈ supported_sites_lines)
  /\ (forall scrape_jobs request,
        calls (snd (scrape_jobs_tool scrape_jobs request)) <> []
        <-> Forall (fun site =>
                      exists description, (site, description) ∈ sites_info)
                   (sites_of request)).
Proof.
  split; [exact described_site|]. split.
  - intros site description Hin. unfold supported_sites_lines.
    apply list_elem_of_In, List.in_or_app. right.
    apply List.in_or_app. left.
    apply List.in_map_iff. exists (site, description).
    split; [reflexivity | now apply list_elem_of_In].
  - intros scrape_jobs request.
    rewrite calls_of_tool.
    transitivity (invalid_sites (sites_of request) = []).
    + destruct (invalid_sites (sites_of request)); split;
        congruence || discriminate.
    + rewrite invalid_sites_nil.
      apply Forall_proper; [|reflexivity].
      intros site. apply described_site.
Qed.

Lemma supported_countries_length (Country : list (string * string)) :
  length (supported_countries_lines Country) = length Country + 14.
Proof.
  unfold supported_countries_lines.
  rewrite !length_app, length_map. simpl. lia.
Qed.

(** X16. Whatever members JobSpy's enumeration has, the country
    listing is a title and an empty line, then one line per member in
    the order of the enumeration, then twelve fixed lines; the popular
    options among them are fixed too and do not depend on the
    enumeration. *)
Theorem supported_countries_listing (Country : list (string * string)) :
  length (supported_countries_lines Country) = length Country + 14
  /\ (forall k name aliases,
        Country !! k = Some (name, aliases) ->
        supported_countries_lines Country !! (2 + k)
        = Some ("- " +:+ name +:+ ": " +:+ aliases))
  /\ drop (2 + length Country) (supported_countries_lines Country)
     = drop 2 (supported_countries_lines []).
Proof.
  split; [apply supported_countries_length|]. split.
  - intros k name aliases Hk. unfold supported_countries_lines.
    rewrite lookup_app_r by (simpl; lia).
    replace (2 + k - length ["Supported Countries for Job Searches"; ""])
      with k by (simpl; lia).
    rewrite lookup_app_l
      by (rewrite length_map; now apply lookup_lt_Some in Hk).
    change (map ?f Country) with (f <$> Country).
    now rewrite list_lookup_fmap, Hk.
  - unfold supported_countries_lines.
    rewrite drop_app_ge by (simpl; lia).
    replace (2 + length Country
             - length ["Supported Countries for Job Searches"; ""])
      with (length Country) by (simpl; lia).
    rewrite drop_app_length'; [reflexivity|]. symmetry. apply length_map.
Qed.

(** ** The validation error is one line *)

Lemma contains_join (c : ascii) (sep : string) (parts : list string) :
  Py.contains c sep = false ->
  Forall (fun part => Py.contains c part = false) parts ->
  Py.contains c (Py.join sep parts) = false.
Proof.
  intros Hsep Hparts. unfold Py.join.
  induction Hparts as [|part parts Hpart Hparts IH]; [reflexivity|].
  destruct parts as [|next parts]; [exact Hpart|].
  change (String.concat sep (part :: next :: parts))
    with (part +:+ sep +:+ String.concat sep (next :: parts)).
  now rewrite !contains_append, Hpart, Hsep, IH.
Qed.

Lemma repr_char_no_break (quote c : ascii) :
  quote = Py.quote1 \/ quote = Py.quote2 ->
  Py.contains (ascii_of_nat 10) (Py.repr_char quote c) = false
  /\ Py.contains (ascii_of_nat 13) (Py.repr_char quote c) = false.
Proof.
  intros [-> | ->]; destruct c as [[] [] [] [] [] [] [] []];
    vm_compute; split; reflexivity.
Qed.

Lemma repr_body_no_break (quote : ascii) (s : string) :
  quote = Py.quote1 \/ quote = Py.quote2 ->
  Py.contains (ascii_of_nat 10) (Py.repr_body quote s) = false
  /\ Py.contains (ascii_of_nat 13) (Py.repr_body quote s) = false.
Proof.
  intros Hquote. induction s as [|c s [IHn IHr]]; [split; reflexivity|].
  cbn [Py.repr_body]. rewrite !contains_append, IHn, IHr.
  destruct (repr_char_no_break quote c Hquote) as [-> ->].
  split; reflexivity.
Qed.

Lemma repr_str_no_break (s : string) :
  Py.contains (ascii_of_nat 10) (Py.repr_str s) = false
  /\ Py.contains (ascii_of_nat 13) (Py.repr_str s) = false.
Proof.
  unfold Py.repr_str.
  set (quote := if Py.contains Py.quote1 s && negb (Py.contains Py.quote2 s)
                then Py.quote2 else Py.quote1).
  assert (Hquote : quote = Py.quote1 \/ quote = Py.quote2)
    by (subst quote; destruct (_ && _); auto).
  destruct (repr_body_no_break quote s Hquote) as [Hn Hr].
  change (String quote (Py.repr_body quote s) +:+ String quote "")
    with (String quote (Py.repr_body quote s +:+ String quote "")).
  cbn [Py.contains]. rewrite !contains_append, Hn, Hr. cbn [Py.contains].
  destruct Hquote as [-> | ->]; split; reflexivity.
Qed.

Lemma repr_list_no_break (l : list string) :
  Py.contains (ascii_of_nat 10) (Py.repr_list l) = false
  /\ Py.contains (ascii_of_nat 13) (Py.repr_list l) = false.
Proof.
  unfold Py.repr_list.
  change ("[" +:+ Py.join ", " (map Py.repr_str l) +:+ "]")
    with (String "[" (Py.join ", " (map Py.repr_str l) +:+ "]")).
  cbn [Py.contains]. rewrite !contains_append.
  rewrite !contains_join; try reflexivity; [split; reflexivity|..];
    apply List.Forall_map, List.Forall_forall; intros s _;
    apply repr_str_no_break.
Qed.

(** X17. The validation error is a single line: it contains no line
    feed and no carriage return, even when a requested site name does,
    because the names are shown through [repr]. *)
Theorem validation_error_is_one_line scrape_jobs request :
  invalid_sites (sites_of request) <> [] ->
  exists text,
    fst (scrape_jobs_tool scrape_jobs request) = Ok text
    /\ Py.contains (ascii_of_nat 10) text = false
    /\ Py.contains (ascii_of_nat 13) text = false.
Proof.
  intros Hinvalid. rewrite tool_invalid by assumption.
  eexists. split; [reflexivity|].
  unfold invalid_sites_error, invalid_sites_error_in.
  rewrite valid_sites_sorted.
  destruct (repr_list_no_break (invalid_sites (sites_of request)))
    as [Hn Hr].
  rewrite !contains_append, Hn, Hr. split; reflexivity.
Qed.

Lemma validation_error_is_one_line_witness :
  exists text,
    fst (scrape_jobs_tool (fun _ => JobSpy.Returns two_jobs)
           {| search_term := "python developer"; location := None;
              site_name := Some ["mon" +:+ Py.newline +:+ "ster"];
              results_wanted := 15; job_type := None; is_remote := false;
              hours_old := None; distance := 50; easy_apply := false;
              country_indeed := "usa"; linkedin_fetch_description := false;
              offset := 0; verbose := 1 |})
    = Ok text
    /\ Py.contains (ascii_of_nat 10) text = false.
Proof.
  destruct (validation_error_is_one_line (fun _ => JobSpy.Returns two_jobs)
              {| search_term := "python developer"; location := None;
                 site_name := Some ["mon" +:+ Py.newline +:+ "ster"];
                 results_wanted := 15; job_type := None; is_remote := false;
                 hours_old := None; distance := 50; easy_apply := false;
                 country_indeed := "usa"; linkedin_fetch_description := false;
                 offset := 0; verbose := 1 |})
    as (text & Htext & Hn & _).
  - vm_compute. discriminate.
  - now exists text.
Defined.

(** ** The log *)

(** X18. An exception record is written to the log exactly when the
    sites are valid and the collaborator raises; its message is
    ["Error scraping jobs: "] followed by the reason, and it is the
    very text that the tool returns. *)
Theorem exception_logged_when_collaborator_raises scrape_jobs request
    (message : string) :
  (LogException message ∈ snd (scrape_jobs_tool scrape_jobs request)
   <-> invalid_sites (sites_of request) = []
       /\ exists exc,
            scrape_jobs (scrape_args request (sites_of request))
            = JobSpy.Raises exc
            /\ message = "Error scraping jobs: " +:+ exc)
  /\ (LogException message ∈ snd (scrape_jobs_tool scrape_jobs request) ->
      fst (scrape_jobs_tool scrape_jobs request) = Ok message).
Proof.
  destruct (invalid_sites (sites_of request)) as [|site invalid] eqn:Hsites.
  - destruct (scrape_jobs (scrape_args request (sites_of request)))
      as [jobs_df|exc|exc] eqn:Hcall.
    + assert (Hnone :
        LogException message ∉ snd (scrape_jobs_tool scrape_jobs request)).
      { destruct (pd.empty jobs_df) eqn:Hempty.
        - rewrite (tool_empty scrape_jobs request jobs_df) by assumption.
          simpl. rewrite !elem_of_cons, elem_of_nil.
          intros [H|[H|[H|[]]]]; discriminate H.
        - rewrite (tool_report_trace scrape_jobs request jobs_df)
            by assumption.
          destruct (report request (sites_of request) jobs_df);
            rewrite !elem_of_cons, elem_of_nil;
            intuition discriminate. }
      split; [split|]; try (intros H; now destruct Hnone).
      intros (_ & exc & [=] & _).
    + rewrite (tool_raises scrape_jobs request exc) by assumption. simpl.
      rewrite !elem_of_cons, elem_of_nil. split; [split|].
      * intros [H|[H|[H|[]]]]; try discriminate H.
        injection H as ->. eauto.
      * intros (_ & exc' & [= <-] & ->). auto.
      * intros [H|[H|[H|[]]]]; try discriminate H. now injection H as ->.
    + rewrite (tool_interrupted scrape_jobs request exc) by assumption. simpl.
      rewrite !elem_of_cons, elem_of_nil. split; [split|].
      * intros [H|[H|[]]]; discriminate H.
      * intros (_ & exc' & [=] & _).
      * intros [H|[H|[]]]; discriminate H.
  - rewrite tool_invalid by (rewrite Hsites; discriminate). simpl.
    rewrite !elem_of_cons, elem_of_nil. split; [split|].
    + intros [H|[]]. discriminate H.
    + intros [[=] _].
    + intros [H|[]]. discriminate H.
Qed.

(** ** The loop composes *)

(** X19. The listings of a table made of two runs of rows are the
    listings of the first run followed by those of the second, the
    display index of the second run carrying on where the first
    stopped; an exception in the first run hides the second. *)
Theorem listings_app (index : nat) (jobs more : list Series) :
  listings index (jobs ++ more)
  = blocks ← listings index jobs;
    rest ← listings (index + length jobs) more;
    Ok (blocks ++ rest).
Proof.
  revert index. induction jobs as [|job jobs IH]; intros index.
  - cbn [app listings length]. rewrite Nat.add_0_r.
    unfold mbind, res_bind. now destruct (listings index more).
  - cbn [app listings length]. rewrite IH, Nat.add_succ_r, Nat.add_succ_l.
    unfold mbind, res_bind.
    destruct (listing_parts index job) as [parts|e]; [|reflexivity].
    destruct (listings (S index) jobs) as [blocks|e]; [|reflexivity].
    now destruct (listings (S (index + length jobs)) more).
Qed.
